(** * Smart Task Tracker API: a model of [api/server.js] and its two schemas

    The development follows the Express handlers of [api/server.js] and the
    Mongoose schemas of [api/models/]: request values are JavaScript values,
    the document store is an explicit state threaded through a small
    state-and-exception monad, and every handler is a function from the
    request to an outcome and a new store.

    Conventions.
    - Instants are integer milliseconds since the epoch ([Date.getTime()]).
    - JSON numbers are integers; fractional numbers are not represented.
    - Strings are byte strings; [trim] and [toLowerCase] act on ASCII.
    - The operations of the JavaScript runtime and of Mongoose whose
      definition lives outside the repository (string-to-number conversion,
      date parsing, regular expressions, ObjectId syntax, schema casting) are
      the fields of the class [Platform]; the theorems hold for every
      platform, and [samplePlatform] is one instance used to run examples.
    - Local time is UTC plus a fixed offset; a change of daylight-saving
      time between two days of a scan is not modelled, and the clock reads
      of one request are one instant.
    - [GET /], [GET /health] and [GET /focus/sessions] are not modelled. *)

From stdpp Require Import gmap strings list fin_maps pretty sorting.
From Stdlib Require Import ZArith Lia Ascii.

Set Warnings "-register-all".
Open Scope Z_scope.

(** ** JavaScript values *)

(** A parsed JSON value, as [express.json()] hands it to a handler in
    [req.body]. *)
Inductive Json : Type :=
| JNull
| JBool (b : bool)
| JNum (n : Z)
| JStr (s : string)
| JArr (l : list Json)
| JObj (m : gmap string Json).

(** A parsed query-string value, as Express hands it over in [req.query]:
    a string, an array ([?a=1&a=2]) or a nested object ([?a[b]=1]). *)
Inductive QVal : Type :=
| QStr (s : string)
| QArr (l : list QVal)
| QObj (m : gmap string QVal).

(** A value of the object literals the handlers pass to Mongoose: a request
    value passed through untouched, the result of [Number(...)] ([None] is
    [NaN]) or the result of [new Date(...)] ([None] is an invalid date). *)
Inductive UVal : Type :=
| URaw (j : Json)
| UNum (n : option Z)
| UDate (t : option Z).

(** JavaScript truthiness of a JSON value. *)
Definition truthy (j : Json) : bool :=
  match j with
  | JNull => false
  | JBool b => b
  | JNum n => negb (n =? 0)
  | JStr s => negb (String.eqb s "")
  | JArr _ | JObj _ => true
  end.

(** Truthiness of a query value. *)
Definition qtruthy (q : QVal) : bool :=
  match q with
  | QStr s => negb (String.eqb s "")
  | QArr _ | QObj _ => true
  end.

(** [typeof v === "string"]. *)
Definition isString (j : Json) : bool :=
  match j with JStr _ => true | _ => false end.

(** [v === s] for a string literal [s]. *)
Definition strictEqStr (j : Json) (s : string) : bool :=
  match j with JStr s' => String.eqb s' s | _ => false end.

(** [Array.isArray(v)]. *)
Definition isArray (j : Json) : bool :=
  match j with JArr _ => true | _ => false end.

(** Property read [obj.k] as destructuring performs it: [None] is
    [undefined].  Only plain objects carry the keys the handlers read. *)
Definition prop (j : Json) (k : string) : option Json :=
  match j with JObj m => m !! k | _ => None end.

(** [req.body || {}]. *)
Definition orEmpty (j : Json) : Json :=
  if truthy j then j else JObj ∅.

(** [k in obj]: a [TypeError] ([None]) unless [obj] is an object. *)
Definition hasKey (k : string) (j : Json) : option bool :=
  match j with
  | JObj m => Some (bool_decide (is_Some (m !! k)))
  | JArr _ => Some false
  | _ => None
  end.

(** [String(v)] on a query value: arrays join their elements with commas,
    plain objects print as [[object Object]]. *)
Fixpoint qString (q : QVal) : string :=
  match q with
  | QStr s => s
  | QArr l => String.concat "," (map qString l)
  | QObj _ => "[object Object]"
  end.

(** [String(v)] on a JSON value; inside an array [null] prints as the empty
    string. *)
Fixpoint jString (j : Json) : string :=
  match j with
  | JNull => "null"
  | JBool true => "true"
  | JBool false => "false"
  | JNum n => pretty n
  | JStr s => s
  | JArr l =>
      String.concat ","
        (map (fun e => match e with JNull => "" | _ => jString e end) l)
  | JObj _ => "[object Object]"
  end.

(** ASCII white space, the part of [String.prototype.trim]'s white space
    that a byte string can hold in one byte. *)
Definition isSpace (c : Ascii.ascii) : bool :=
  let n := Z.of_nat (Ascii.nat_of_ascii c) in
  (n =? 32) || ((9 <=? n) && (n <=? 13)).

Fixpoint trimStart (s : string) : string :=
  match s with
  | String c r => if isSpace c then trimStart r else s
  | EmptyString => EmptyString
  end.

Fixpoint trimEnd (s : string) : string :=
  match s with
  | String c r =>
      match trimEnd r with
      | EmptyString => if isSpace c then EmptyString else String c EmptyString
      | r' => String c r'
      end
  | EmptyString => EmptyString
  end.

(** [s.trim()]. *)
Definition trim (s : string) : string := trimEnd (trimStart s).

Definition lowerChar (c : Ascii.ascii) : Ascii.ascii :=
  let n := Ascii.nat_of_ascii c in
  if ((65 <=? n) && (n <=? 90))%nat then Ascii.ascii_of_nat (n + 32) else c.

(** [s.toLowerCase()]. *)
Fixpoint toLowerCase (s : string) : string :=
  match s with
  | String c r => String (lowerChar c) (toLowerCase r)
  | EmptyString => EmptyString
  end.

(** ** The platform: runtime and Mongoose operations defined outside the
       repository *)

Class Platform : Type := {
  (** [mongoose.Types.ObjectId.isValid(v)]. *)
  ObjectId_isValid : Json -> bool;
  (** The identifier a value is cast to, written as the store keeps it in
      [_id]; [None] is a [CastError]. *)
  ObjectId_hex : Json -> option string;
  (** The numeric value of a string, as [Number(s)] computes it; [None] is
      [NaN] (or a number that is not an integer). *)
  StringToNumber : string -> option Z;
  (** [Date.parse(s)]; [None] is [NaN]. *)
  Date_parse : string -> option Z;
  (** Compiling a [$regex] pattern with [$options: "i"]: [None] when the
      store rejects the pattern, otherwise the test it performs. *)
  regexI : string -> option (string -> bool);
  (** Mongoose's cast to a [String] path: [None] is a [CastError],
      [Some None] is [null]. *)
  castString : Json -> option (option string);
  (** Mongoose's cast to a [[String]] path. *)
  castStringArray : Json -> option (list string);
  (** Whether an [enum] validator lets [null] through. *)
  enumAllowsNull : bool;
  (** A string is cast to itself. *)
  castString_str : forall s, castString (JStr s) = Some (Some s);
  (** The empty array is cast to the empty array. *)
  castStringArray_nil : castStringArray (JArr []) = Some [];
}.

(** ** Time *)

(** What a request reads from its surroundings. *)
Record Env : Type := {
  (** the value of [new Date()] in the handler *)
  now : Z;
  (** the clock Mongoose's [timestamps] option reads *)
  stamp : Z;
  (** how far local time is ahead of UTC, in milliseconds *)
  tz : Z;
  (** the identifier Mongoose generates for a new document *)
  newId : string;
}.

Definition dayMs : Z := 86400000.

(** [startOfDay(d)]: [d] with the local hours, minutes, seconds and
    milliseconds set to zero. *)
Definition startOfDay (e : Env) (d : Z) : Z :=
  (d + tz e) / dayMs * dayMs - tz e.

(** [startOfNDaysAgo(n)]: local midnight of today moved back [n] calendar
    days. *)
Definition startOfNDaysAgo (e : Env) (n : Z) : Z :=
  startOfDay e (now e) - n * dayMs.

(** The civil date of a day counted from 1970-01-01, in the proleptic
    Gregorian calendar. *)
Definition civilFromDays (z : Z) : Z * Z * Z :=
  let z := z + 719468 in
  let era := z / 146097 in
  let doe := z - era * 146097 in
  let yoe := (doe - doe / 1460 + doe / 36524 - doe / 146096) / 365 in
  let y := yoe + era * 400 in
  let doy := doe - (365 * yoe + yoe / 4 - yoe / 100) in
  let mp := (5 * doy + 2) / 153 in
  let d := doy - (153 * mp + 2) / 5 + 1 in
  let m := if mp <? 10 then mp + 3 else mp - 9 in
  (if m <=? 2 then y + 1 else y, m, d).

Definition pad2 (n : Z) : string :=
  if n <? 10 then "0" +:+ pretty n else pretty n.

Definition pad4 (n : Z) : string :=
  if n <? 10 then "000" +:+ pretty n
  else if n <? 100 then "00" +:+ pretty n
  else if n <? 1000 then "0" +:+ pretty n
  else pretty n.

(** The UTC calendar date of an instant as [YYYY-MM-DD]: what both
    [d.toISOString().slice(0, 10)] and
    [$dateToString: { format: "%Y-%m-%d" }] print (years 0000 to 9999). *)
Definition isoDate (t : Z) : string :=
  let '(y, m, d) := civilFromDays (t / dayMs) in
  pad4 y +:+ "-" +:+ pad2 m +:+ "-" +:+ pad2 d.

(** [Math.round(num / den)] for integers [num] and [den > 0]: the nearest
    integer, a tie going up.  The quotient of two integers is either a
    half-integer exactly or at least [1 / (2 * den)] away from one, so for
    the differences of instants a clock produces the double [num / den]
    rounds to the same integer as the exact quotient. *)
Definition Math_round_div (num den : Z) : Z :=
  (2 * num + den) / (2 * den).

(** ** Documents and the store *)

(** [models/Task.js]: a stored task.  [notes] and [status] are [String]
    paths and may hold [null]; [dueDate] and [completedAt] are [Date] paths
    whose [null] is [None]. *)
Module Task.
Record t : Type := mk {
  _id : string;
  title : string;
  notes : option string;
  status : option string;
  priority : Z;
  dueDate : option Z;
  tags : list string;
  completedAt : option Z;
  createdAt : Z;
  updatedAt : Z;
}.
End Task.

(** [models/FocusSession.js]: a stored focus session. *)
Module FocusSession.
Record t : Type := mk {
  _id : string;
  taskId : option string;
  startedAt : Z;
  endedAt : Z;
  durationMin : Z;
  createdAt : Z;
  updatedAt : Z;
}.
End FocusSession.

(** The two collections, whether the store answers, and the calls made to
    it so far (most recent last). *)
Record Store : Type := {
  tasks : list Task.t;
  sessions : list FocusSession.t;
  reachable : bool;
  calls : list string;
}.

(** What a store call can throw. *)
Inductive Err : Type :=
| CastError (path : string)
| ValidatorError (path : string)
| RegexError (pattern : string)
| StoreUnreachable
| TypeError (what : string).

(** [err.message]. *)
Definition message (e : Err) : string :=
  match e with
  | CastError p => "Cast failed for path " +:+ p
  | ValidatorError p => "Validation failed for path " +:+ p
  | RegexError p => "Regular expression is invalid: " +:+ p
  | StoreUnreachable => "store unreachable"
  | TypeError w => "TypeError: " +:+ w
  end.

Inductive Res (A : Type) : Type :=
| Ok (a : A)
| Throw (e : Err).
Arguments Ok {A} a.
Arguments Throw {A} e.

(** A computation that awaits store calls: it reads and writes the store
    and either returns or throws. *)
Definition Db (A : Type) : Type := Store -> Res A * Store.

#[global] Instance Db_ret : MRet Db := fun A a st => (Ok a, st).

#[global] Instance Db_bind : MBind Db := fun A B f m st =>
  match m st with
  | (Ok a, st') => f a st'
  | (Throw e, st') => (Throw e, st')
  end.

Definition throw {A : Type} (e : Err) : Db A := fun st => (Throw e, st).

(** A synchronous step that may throw. *)
Definition lift {A : Type} (r : Res A) : Db A := fun st => (r, st).

(** The store after one more call has been recorded. *)
Definition logged (name : string) (st : Store) : Store :=
  {| tasks := tasks st; sessions := sessions st;
     reachable := reachable st; calls := calls st ++ [name] |}.

Definition withTasks (l : list Task.t) (st : Store) : Store :=
  {| tasks := l; sessions := sessions st;
     reachable := reachable st; calls := calls st |}.

Definition withSessions (l : list FocusSession.t) (st : Store) : Store :=
  {| tasks := tasks st; sessions := l;
     reachable := reachable st; calls := calls st |}.

(** Entering a store method: the call is recorded. *)
Definition call (name : string) : Db unit := fun st => (Ok (), logged name st).

(** The round trip to the store: it throws when the store does not
    answer. *)
Definition roundTrip : Db unit := fun st =>
  if reachable st then (Ok (), st) else (Throw StoreUnreachable, st).

Definition getTasks : Db (list Task.t) := fun st => (Ok (tasks st), st).

Definition putTasks (l : list Task.t) : Db unit := fun st =>
  (Ok (), withTasks l st).

Definition getSessions : Db (list FocusSession.t) := fun st =>
  (Ok (sessions st), st).

Definition putSessions (l : list FocusSession.t) : Db unit := fun st =>
  (Ok (), withSessions l st).

(** ** What a handler produces *)

Inductive Payload : Type :=
| PTasks (l : list Task.t)
| PTask (t : Task.t)
| PSession (s : FocusSession.t)
| POkTrue
| PStats (todayCompleted streak weeklyFocusMinutes : Z)
| PError (error : string).

(** [res.status(code).json(payload)]. *)
Record Response : Type := { code : Z; payload : Payload }.

(** A handler either sends a response or lets an error leave it. *)
Inductive Outcome : Type :=
| Responded (r : Response)
| Unhandled (e : Err).

Definition Handler : Type := Store -> Outcome * Store.

Definition json (c : Z) (p : Payload) : Db Response :=
  mret {| code := c; payload := p |}.

(** [try { body } catch (err) { res.status(c).json({ error: msg err }) }]. *)
Definition tryCatch (body : Db Response) (c : Z) (msg : Err -> string)
  : Handler := fun st =>
  match body st with
  | (Ok r, st') => (Responded r, st')
  | (Throw e, st') =>
      (Responded {| code := c; payload := PError (msg e) |}, st')
  end.

(** A handler body with no [try] around it. *)
Definition noCatch (body : Db Response) : Handler := fun st =>
  match body st with
  | (Ok r, st') => (Responded r, st')
  | (Throw e, st') => (Unhandled e, st')
  end.

(** ** The Task schema *)

Inductive PathType : Type :=
| PString (required : bool) (enum : option (list string))
| PNumber (enum : option (list Z))
| PDate
| PStringArray.

(** [taskSchema] of [models/Task.js]; the defaults are in [blankTask]. *)
Definition taskSchema : list (string * PathType) :=
  [ ("title", PString true None);
    ("notes", PString false None);
    ("status", PString false (Some ["todo"; "doing"; "done"]));
    ("priority", PNumber (Some [1; 2; 3]));
    ("dueDate", PDate);
    ("tags", PStringArray);
    ("completedAt", PDate) ].

(** A value cast to its path's type. *)
Inductive Field : Type :=
| FStr (s : option string)
| FNum (n : Z)
| FDate (d : option Z)
| FTags (l : list string).

(** A new document before any path is set: the schema's defaults, a fresh
    identifier and both timestamps. *)
Definition blankTask (e : Env) : Task.t :=
  {| Task._id := newId e; Task.title := ""; Task.notes := Some "";
     Task.status := Some "todo"; Task.priority := 2; Task.dueDate := None;
     Task.tags := []; Task.completedAt := None;
     Task.createdAt := stamp e; Task.updatedAt := stamp e |}.

(** Writing a cast value to its path. *)
Definition setField (k : string) (f : Field) (t : Task.t) : Task.t :=
  let 'Task.mk i ti no st pr du ta co cr up := t in
  match f with
  | FStr o =>
      if String.eqb k "title" then
        Task.mk i (default ti o) no st pr du ta co cr up
      else if String.eqb k "notes" then Task.mk i ti o st pr du ta co cr up
      else if String.eqb k "status" then Task.mk i ti no o pr du ta co cr up
      else t
  | FNum n =>
      if String.eqb k "priority" then Task.mk i ti no st n du ta co cr up
      else t
  | FDate d =>
      if String.eqb k "dueDate" then Task.mk i ti no st pr d ta co cr up
      else if String.eqb k "completedAt" then
        Task.mk i ti no st pr du ta d cr up
      else t
  | FTags l =>
      if String.eqb k "tags" then Task.mk i ti no st pr du l co cr up
      else t
  end.

Definition touch (e : Env) (t : Task.t) : Task.t :=
  let 'Task.mk i ti no st pr du ta co cr _ := t in
  Task.mk i ti no st pr du ta co cr (stamp e).

Section Schema.
Context `{PF : Platform}.

(** Casting and validating one value for one path, as [Task.create] does
    and as [findByIdAndUpdate] does under [runValidators: true].  The
    handlers pass request values to the [String] paths and to [tags],
    numbers to [priority] and dates or [null] to the [Date] paths; any other
    pairing is reported as a cast error. *)
Definition castField (k : string) (ty : PathType) (v : UVal) : Res Field :=
  match ty, v with
  | PString required enum, URaw j =>
      match castString j with
      | None => Throw (CastError k)
      | Some None =>
          if required then Throw (ValidatorError k)
          else if bool_decide (is_Some enum) && negb enumAllowsNull
          then Throw (ValidatorError k)
          else Ok (FStr None)
      | Some (Some s) =>
          if required && String.eqb s "" then Throw (ValidatorError k)
          else match enum with
               | Some vals =>
                   if bool_decide (s ∈ vals) then Ok (FStr (Some s))
                   else Throw (ValidatorError k)
               | None => Ok (FStr (Some s))
               end
      end
  | PNumber enum, UNum (Some n) =>
      match enum with
      | Some vals =>
          if bool_decide (n ∈ vals) then Ok (FNum n)
          else Throw (ValidatorError k)
      | None => Ok (FNum n)
      end
  | PDate, UDate (Some t) => Ok (FDate (Some t))
  | PDate, URaw JNull => Ok (FDate None)
  | PStringArray, URaw j =>
      match castStringArray j with
      | Some l => Ok (FTags l)
      | None => Throw (CastError k)
      end
  | _, _ => Throw (CastError k)
  end.

(** Casting the paths of an object literal in schema order; keys the schema
    does not know are dropped (strict mode). *)
Fixpoint castPaths (schema : list (string * PathType))
    (u : gmap string UVal) : Res (list (string * Field)) :=
  match schema with
  | [] => Ok []
  | (k, ty) :: rest =>
      match u !! k with
      | None => castPaths rest u
      | Some v =>
          match castField k ty v with
          | Throw e => Throw e
          | Ok f =>
              match castPaths rest u with
              | Throw e => Throw e
              | Ok fs => Ok ((k, f) :: fs)
              end
          end
      end
  end.

Definition setFields (fs : list (string * Field)) (t : Task.t) : Task.t :=
  foldl (fun acc kf => setField kf.1 kf.2 acc) t fs.

End Schema.

(** ** The model methods the handlers call *)

(** A condition of a [find] filter: a bare value, a number, or
    [{ $regex: pattern, $options: "i" }]. *)
Inductive Cond : Type :=
| CVal (q : QVal)
| CNum (n : Z)
| CRegexI (pattern : string).

Definition cmpOptZ (a b : option Z) : comparison :=
  match a, b with
  | None, None => Eq
  | None, Some _ => Lt
  | Some _, None => Gt
  | Some x, Some y => x ?= y
  end.

(** Comparing two tasks on one path; a path no task has compares equal. *)
Definition cmpField (f : string) (a b : Task.t) : comparison :=
  if String.eqb f "createdAt" then Task.createdAt a ?= Task.createdAt b
  else if String.eqb f "priority" then Task.priority a ?= Task.priority b
  else if String.eqb f "dueDate" then cmpOptZ (Task.dueDate a) (Task.dueDate b)
  else if String.eqb f "title" then String.compare (Task.title a) (Task.title b)
  else Eq.

(** The order of [.sort({ [f]: dir, _id: -1 })]. *)
Definition before (f : string) (dir : Z) (a b : Task.t) : bool :=
  match (if dir =? 1 then cmpField f a b else CompOpp (cmpField f a b)) with
  | Lt => true
  | Gt => false
  | Eq =>
      match String.compare (Task._id a) (Task._id b) with
      | Lt => false
      | _ => true
      end
  end.

Definition sortTasks (f : string) (dir : Z) (l : list Task.t) : list Task.t :=
  merge_sort (fun a b => before f dir a b) l.

Definition qStr (q : QVal) : option string :=
  match q with QStr s => Some s | _ => None end.

(** [{ status: "done", completedAt: { $gte: since } }]. *)
Definition doneSince (since : Z) (t : Task.t) : bool :=
  bool_decide (Task.status t = Some "done")
  && match Task.completedAt t with
     | Some c => since <=? c
     | None => false
     end.

(** [{ $group: { _id: "$day", count: { $sum: 1 } } }]. *)
Definition groupCount (days : list string) : gmap string Z :=
  foldr (fun d m => <[d := default 0 (m !! d) + 1]> m) ∅ days.

Definition replaceTask (id : string) (t' : Task.t) (l : list Task.t)
  : list Task.t :=
  (fix go (l : list Task.t) : list Task.t :=
     match l with
     | [] => []
     | t :: r => if String.eqb (Task._id t) id then t' :: r else t :: go r
     end) l.

Definition removeTask (id : string) (l : list Task.t) : list Task.t :=
  (fix go (l : list Task.t) : list Task.t :=
     match l with
     | [] => []
     | t :: r => if String.eqb (Task._id t) id then r else t :: go r
     end) l.

Definition replaceSession (s' : FocusSession.t) (l : list FocusSession.t)
  : list FocusSession.t :=
  (fix go (l : list FocusSession.t) : list FocusSession.t :=
     match l with
     | [] => []
     | s :: r =>
         if String.eqb (FocusSession._id s) (FocusSession._id s')
         then s' :: r else s :: go r
     end) l.

Definition taskById (id : string) (l : list Task.t) : option Task.t :=
  List.find (fun t => String.eqb (Task._id t) id) l.

Definition sessionById (id : string) (l : list FocusSession.t)
  : option FocusSession.t :=
  List.find (fun s => String.eqb (FocusSession._id s) id) l.

Section Models.
Context `{PF : Platform}.

Definition castId (v : Json) : Db string :=
  match ObjectId_hex v with
  | Some h => mret h
  | None => throw (CastError "_id")
  end.

(** The test one condition of a filter performs on a task.  A bare array
    on a [String] path is read as [$in]. *)
Definition condTest (k : string) (c : Cond) : Res (Task.t -> bool) :=
  match c with
  | CVal (QStr s) =>
      if String.eqb k "status" then
        Ok (fun t => bool_decide (Task.status t = Some s))
      else if String.eqb k "tags" then
        Ok (fun t => bool_decide (s ∈ Task.tags t))
      else Throw (CastError k)
  | CVal (QArr l) =>
      if String.eqb k "status" then
        match mapM qStr l with
        | Some ss =>
            Ok (fun t => match Task.status t with
                         | Some s => bool_decide (s ∈ ss)
                         | None => false
                         end)
        | None => Throw (CastError k)
        end
      else Throw (CastError k)
  | CVal (QObj _) => Throw (CastError k)
  | CNum n =>
      if String.eqb k "priority" then
        Ok (fun t => bool_decide (Task.priority t = n))
      else Throw (CastError k)
  | CRegexI p =>
      if String.eqb k "title" then
        match regexI p with
        | Some test => Ok (fun t => test (Task.title t))
        | None => Throw (RegexError p)
        end
      else Throw (CastError k)
  end.

Fixpoint compileWhere (paths : list string) (w : gmap string Cond)
  : Res (Task.t -> bool) :=
  match paths with
  | [] => Ok (fun _ => true)
  | k :: rest =>
      match w !! k with
      | None => compileWhere rest w
      | Some c =>
          match condTest k c with
          | Throw e => Throw e
          | Ok f =>
              match compileWhere rest w with
              | Throw e => Throw e
              | Ok g => Ok (fun t => f t && g t)
              end
          end
      end
  end.

Definition wherePaths : list string := ["status"; "priority"; "tags"; "title"].

(** [Task.find(where).sort({ [sortField]: sortDir, _id: -1 })]. *)
Definition Task_find (w : gmap string Cond) (sortField : string) (sortDir : Z)
  : Db (list Task.t) :=
  call "Task.find";;
  test ← lift (compileWhere wherePaths w);
  roundTrip;;
  l ← getTasks;
  mret (sortTasks sortField sortDir (List.filter test l)).

(** [Task.create(doc)]. *)
Definition Task_create (e : Env) (doc : gmap string UVal) : Db Task.t :=
  call "Task.create";;
  fs ← lift (castPaths taskSchema doc);
  (if bool_decide (is_Some (doc !! "title")) then mret ()
   else throw (ValidatorError "title"));;
  roundTrip;;
  l ← getTasks;
  let t := setFields fs (blankTask e) in
  putTasks (l ++ [t]);;
  mret t.

(** [Task.findById(id)]. *)
Definition Task_findById (id : string) : Db (option Task.t) :=
  call "Task.findById";;
  oid ← castId (JStr id);
  roundTrip;;
  l ← getTasks;
  mret (taskById oid l).

(** [Task.findByIdAndUpdate(id, update, { new: true, runValidators: true })]. *)
Definition Task_findByIdAndUpdate (e : Env) (id : string)
    (update : gmap string UVal) : Db (option Task.t) :=
  call "Task.findByIdAndUpdate";;
  oid ← castId (JStr id);
  fs ← lift (castPaths taskSchema update);
  roundTrip;;
  l ← getTasks;
  match taskById oid l with
  | None => mret None
  | Some t =>
      let t' := touch e (setFields fs t) in
      putTasks (replaceTask oid t' l);;
      mret (Some t')
  end.

(** [Task.findByIdAndDelete(id)]. *)
Definition Task_findByIdAndDelete (id : string) : Db (option Task.t) :=
  call "Task.findByIdAndDelete";;
  oid ← castId (JStr id);
  roundTrip;;
  l ← getTasks;
  match taskById oid l with
  | None => mret None
  | Some t => putTasks (removeTask oid l);; mret (Some t)
  end.

(** [Task.countDocuments(filter)]. *)
Definition Task_countDocuments (test : Task.t -> bool) : Db Z :=
  call "Task.countDocuments";;
  roundTrip;;
  l ← getTasks;
  mret (Z.of_nat (length (List.filter test l))).

(** The aggregation of the statistics route: match the tasks done since
    [since], project the UTC day of [completedAt], group by day. *)
Definition Task_aggregate (since : Z) : Db (list (string * Z)) :=
  call "Task.aggregate";;
  roundTrip;;
  l ← getTasks;
  mret (map_to_list
          (groupCount
             (isoDate <$> omap Task.completedAt (List.filter (doneSince since) l)))).

(** [FocusSession.create(doc)]. *)
Definition FocusSession_create (e : Env) (taskId : option Json)
    (startedAt endedAt durationMin : Z) : Db FocusSession.t :=
  call "FocusSession.create";;
  tid ← match taskId with
        | None => mret None
        | Some v => h ← castId v; mret (Some h)
        end;
  roundTrip;;
  l ← getSessions;
  let s := {| FocusSession._id := newId e; FocusSession.taskId := tid;
              FocusSession.startedAt := startedAt;
              FocusSession.endedAt := endedAt;
              FocusSession.durationMin := durationMin;
              FocusSession.createdAt := stamp e;
              FocusSession.updatedAt := stamp e |} in
  putSessions (l ++ [s]);;
  mret s.

(** [FocusSession.findById(id)]. *)
Definition FocusSession_findById (id : Json) : Db (option FocusSession.t) :=
  call "FocusSession.findById";;
  oid ← castId id;
  roundTrip;;
  l ← getSessions;
  mret (sessionById oid l).

(** [session.save()]. *)
Definition FocusSession_save (e : Env) (s : FocusSession.t)
  : Db FocusSession.t :=
  call "session.save";;
  roundTrip;;
  l ← getSessions;
  let s' := {| FocusSession._id := FocusSession._id s;
               FocusSession.taskId := FocusSession.taskId s;
               FocusSession.startedAt := FocusSession.startedAt s;
               FocusSession.endedAt := FocusSession.endedAt s;
               FocusSession.durationMin := FocusSession.durationMin s;
               FocusSession.createdAt := FocusSession.createdAt s;
               FocusSession.updatedAt := stamp e |} in
  putSessions (replaceSession s' l);;
  mret s'.

(** The aggregation of the weekly minutes: match the sessions started since
    [weekStart], group them all into one document summing [durationMin]. *)
Definition FocusSession_aggregate (weekStart : Z) : Db (list Z) :=
  call "FocusSession.aggregate";;
  roundTrip;;
  l ← getSessions;
  mret (match List.filter (fun s => weekStart <=? FocusSession.startedAt s) l with
        | [] => []
        | m => [foldr (fun s acc => FocusSession.durationMin s + acc) 0 m]
        end).

End Models.

(** ** The routes of [api/server.js] *)

Definition statuses : list string := ["todo"; "doing"; "done"].

Definition priorities : list Z := [1; 2; 3].

(** The update allow-list of [PATCH /tasks/:id]. *)
Definition allowed : list string :=
  ["title"; "notes"; "status"; "priority"; "dueDate"; "tags"].

Definition sortMap : gmap string string :=
  {[ "createdAt" := "createdAt"; "priority" := "priority";
     "dueDate" := "dueDate"; "title" := "title" ]}.

(** The members an object literal inherits from [Object.prototype]:
    [sortMap[sort]] finds them, and they are not nullish. *)
Definition objectPrototypeKeys : list string :=
  ["constructor"; "__proto__"; "hasOwnProperty"; "isPrototypeOf";
   "propertyIsEnumerable"; "toLocaleString"; "toString"; "valueOf";
   "__defineGetter__"; "__defineSetter__"; "__lookupGetter__";
   "__lookupSetter__"].

(** [sortMap[sort] ?? "createdAt"], [sort] defaulting to ["createdAt"].  An
    inherited member used as a sort key prints as a text that names no
    path of a task; it is written [<inherited k>] here. *)
Definition sortFieldOf (sort : option QVal) : string :=
  let key := match sort with Some q => qString q | None => "createdAt" end in
  match sortMap !! key with
  | Some f => f
  | None =>
      if bool_decide (key ∈ objectPrototypeKeys)
      then "<inherited " +:+ key +:+ ">"
      else "createdAt"
  end.

(** [String(dir).toLowerCase() === "asc" ? 1 : -1], [dir] defaulting to
    ["desc"]. *)
Definition sortDirOf (dir : option QVal) : Z :=
  let d := match dir with Some q => qString q | None => "desc" end in
  if String.eqb (toLowerCase d) "asc" then 1 else -1.

(** [current.status === s] on a stored status. *)
Definition statusIs (t : Task.t) (s : string) : bool :=
  bool_decide (Task.status t = Some s).

(** [v === s] on a value of the update object. *)
Definition uvalIs (v : UVal) (s : string) : bool :=
  match v with URaw j => strictEqStr j s | _ => false end.

(** [Math.max(0, Math.round(ms / 60000))]. *)
Definition elapsedMinutes (ms : Z) : Z := Z.max 0 (Math_round_div ms 60000).

Definition timeClip (t : Z) : option Z :=
  if Z.abs t <=? 8640000000000000 then Some t else None.

Section Routes.
Context `{PF : Platform}.

(** [Number(v)] on a query value. *)
Definition qNumber (q : QVal) : option Z :=
  match q with
  | QStr s => StringToNumber s
  | QArr _ => StringToNumber (qString q)
  | QObj _ => None
  end.

(** [Number(v)] on a JSON value. *)
Definition jNumber (j : Json) : option Z :=
  match j with
  | JNull => Some 0
  | JBool b => Some (if b then 1 else 0)
  | JNum n => Some n
  | JStr s => StringToNumber s
  | JArr _ => StringToNumber (jString j)
  | JObj _ => None
  end.

(** [new Date(v)] on a JSON value; [None] is an invalid date. *)
Definition newDate (j : Json) : option Z :=
  match j with
  | JNull => Some 0
  | JBool b => Some (if b then 1 else 0)
  | JNum n => timeClip n
  | JStr s => Date_parse s
  | JArr _ | JObj _ => Date_parse (jString j)
  end.

(** The filter [GET /tasks] builds from the query string (lines 54-61). *)
Definition buildWhere (query : gmap string QVal) : gmap string Cond :=
  let w : gmap string Cond := ∅ in
  let w :=
    match query !! "status" with
    | Some status =>
        if qtruthy status && bool_decide (qString status ∈ statuses)
        then <["status" := CVal status]> w else w
    | None => w
    end in
  let w :=
    match query !! "priority" with
    | Some priority =>
        if qtruthy priority
           && match qNumber priority with
              | Some n => bool_decide (n ∈ priorities)
              | None => false
              end
        then <["priority" := CNum (default 0 (qNumber priority))]> w else w
    | None => w
    end in
  let w :=
    match query !! "tag" with
    | Some tag =>
        if qtruthy tag && negb (String.eqb (trim (qString tag)) "")
        then <["tags" := CVal (QStr (trim (qString tag)))]> w else w
    | None => w
    end in
  match query !! "q" with
  | Some q =>
      if qtruthy q && negb (String.eqb (trim (qString q)) "")
      then <["title" := CRegexI (trim (qString q))]> w else w
  | None => w
  end.

(** [GET /tasks] (lines 50-74): no [try] surrounds the body. *)
Definition listTasks (query : gmap string QVal) : Handler :=
  noCatch
    (let w := buildWhere query in
     let sortField := sortFieldOf (query !! "sort") in
     let sortDir := sortDirOf (query !! "dir") in
     found ← Task_find w sortField sortDir;
     json 200 (PTasks found)).

(** The object literal of lines 90-97. *)
Definition createDoc (title notes status priority dueDate tags : Json)
  : gmap string UVal :=
  {[ "title" := URaw title;
     "notes" := URaw notes;
     "status" := URaw status;
     "priority" := UNum (jNumber priority);
     "dueDate" := (if truthy dueDate then UDate (newDate dueDate)
                   else URaw JNull);
     "tags" := URaw (if isArray tags then tags else JArr []) ]}.

(** [POST /tasks] (lines 77-105). *)
Definition createTask (e : Env) (reqBody : Json) : Handler :=
  tryCatch
    (let body := orEmpty reqBody in
     let notes := default (JStr "") (prop body "notes") in
     let priority := default (JNum 2) (prop body "priority") in
     let dueDate := default JNull (prop body "dueDate") in
     let tags := default (JArr []) (prop body "tags") in
     let status := default (JStr "todo") (prop body "status") in
     match prop body "title" with
     | None => json 400 (PError "title is required")
     | Some title =>
         if negb (truthy title) || negb (isString title)
         then json 400 (PError "title is required")
         else
           doc ← Task_create e
                   (createDoc title notes status priority dueDate tags);
           json 201 (PTask doc)
     end)
    400 message.

(** [for (const k of allowed) if (k in req.body) update[k] = req.body[k]]. *)
Fixpoint copyAllowed (ks : list string) (body : Json)
    (update : gmap string UVal) : Res (gmap string UVal) :=
  match ks with
  | [] => Ok update
  | k :: rest =>
      match hasKey k body with
      | None => Throw (TypeError "cannot use 'in' on a value that is no object")
      | Some true =>
          match prop body k with
          | Some v => copyAllowed rest body (<[k := URaw v]> update)
          | None => copyAllowed rest body update
          end
      | Some false => copyAllowed rest body update
      end
  end.

(** [if ("priority" in update) update.priority = Number(update.priority)]. *)
Definition coercePriority (update : gmap string UVal) : gmap string UVal :=
  match update !! "priority" with
  | Some (URaw v) => <["priority" := UNum (jNumber v)]> update
  | _ => update
  end.

(** [if ("dueDate" in update)
      update.dueDate = update.dueDate ? new Date(update.dueDate) : null]. *)
Definition coerceDueDate (update : gmap string UVal) : gmap string UVal :=
  match update !! "dueDate" with
  | Some (URaw v) =>
      <["dueDate" := if truthy v then UDate (newDate v) else URaw JNull]> update
  | _ => update
  end.

(** Lines 133-137: the [completedAt] side of a status change. *)
Definition transition (e : Env) (current : Task.t) (nextStatus : UVal)
    (update : gmap string UVal) : gmap string UVal :=
  if negb (statusIs current "done") && uvalIs nextStatus "done"
  then <["completedAt" := UDate (Some (now e))]> update
  else if statusIs current "done" && negb (uvalIs nextStatus "done")
  then <["completedAt" := URaw JNull]> update
  else update.

(** Lines 140-145. *)
Definition finishPatch (e : Env) (id : string) (update : gmap string UVal)
  : Db Response :=
  updated ← Task_findByIdAndUpdate e id update;
  match updated with
  | None => json 404 (PError "not found")
  | Some t => json 200 (PTask t)
  end.

(** [PATCH /tasks/:id] (lines 108-152). *)
Definition patchTask (e : Env) (id : string) (reqBody : Json) : Handler :=
  tryCatch
    (if negb (ObjectId_isValid (JStr id))
     then json 400 (PError "invalid id")
     else
       update ← lift (copyAllowed allowed reqBody ∅);
       let update := coerceDueDate (coercePriority update) in
       match update !! "status" with
       | Some nextStatus =>
           current ← Task_findById id;
           match current with
           | None => json 404 (PError "not found")
           | Some current =>
               finishPatch e id (transition e current nextStatus update)
           end
       | None => finishPatch e id update
       end)
    400 message.

(** [DELETE /tasks/:id] (lines 155-169). *)
Definition deleteTask (id : string) : Handler :=
  tryCatch
    (if negb (ObjectId_isValid (JStr id))
     then json 400 (PError "invalid id")
     else
       deleted ← Task_findByIdAndDelete id;
       match deleted with
       | None => json 404 (PError "not found")
       | Some _ => json 200 POkTrue
       end)
    400 message.

(** The loop of lines 212-217: [n] iterations are left, [i] is the day
    offset, [streak] the count so far. *)
Fixpoint streakLoop (e : Env) (daysWith : gset string) (n : nat)
    (i streak : Z) : Z :=
  match n with
  | O => streak
  | S n' =>
      let dayStr := isoDate (startOfNDaysAgo e i) in
      if bool_decide (dayStr ∈ daysWith)
      then streakLoop e daysWith n' (i + 1) (streak + 1)
      else streak
  end.

(** [GET /stats/overview] (lines 192-231). *)
Definition statsOverview (e : Env) : Handler :=
  tryCatch
    (let todayStart := startOfDay e (now e) in
     todayCompleted ← Task_countDocuments (doneSince todayStart);
     let since := startOfNDaysAgo e 60 in
     completions ← Task_aggregate since;
     let daysWith : gset string := list_to_set (fst <$> completions) in
     let streak := streakLoop e daysWith 60 0 0 in
     let weekStart := startOfNDaysAgo e 6 in
     weeklyAgg ← FocusSession_aggregate weekStart;
     let weeklyFocusMinutes := default 0 (head weeklyAgg) in
     json 200 (PStats todayCompleted streak weeklyFocusMinutes))
    500 (fun _ => "stats failed").

(** [POST /focus/start] (lines 238-255). *)
Definition focusStart (e : Env) (reqBody : Json) : Handler :=
  tryCatch
    (let body := orEmpty reqBody in
     let taskId := prop body "taskId" in
     let now_ := now e in
     doc ← FocusSession_create e
             (match taskId with
              | Some v => if truthy v && ObjectId_isValid v then Some v else None
              | None => None
              end)
             now_ now_ 0;
     json 201 (PSession doc))
    400 message.

(** [POST /focus/stop] (lines 258-281). *)
Definition focusStop (e : Env) (reqBody : Json) : Handler :=
  tryCatch
    (let body := orEmpty reqBody in
     match prop body "sessionId" with
     | None => json 400 (PError "sessionId required")
     | Some sessionId =>
         if negb (truthy sessionId) || negb (ObjectId_isValid sessionId)
         then json 400 (PError "sessionId required")
         else
           found ← FocusSession_findById sessionId;
           match found with
           | None => json 404 (PError "session not found")
           | Some session =>
               let endedAt := now e in
               let ms := endedAt - FocusSession.startedAt session in
               let minutes := elapsedMinutes ms in
               saved ← FocusSession_save e
                         {| FocusSession._id := FocusSession._id session;
                            FocusSession.taskId := FocusSession.taskId session;
                            FocusSession.startedAt := FocusSession.startedAt session;
                            FocusSession.endedAt := endedAt;
                            FocusSession.durationMin := minutes;
                            FocusSession.createdAt := FocusSession.createdAt session;
                            FocusSession.updatedAt := FocusSession.updatedAt session |};
               json 200 (PSession saved)
           end
     end)
    400 message.

End Routes.

(** ** A platform to run the handlers on

    [samplePlatform] fixes the operations of [Platform] on the values the
    examples below use, where it agrees with Node.js, Mongoose and MongoDB:
    24 hexadecimal digits are an ObjectId, a decimal numeral is a number,
    and a pattern of plain characters and dots is a regular expression.
    Outside of that it takes the restrictive branch: other numerals are
    [NaN], no date string is parsed, and a pattern with any other
    metacharacter is refused. *)

Fixpoint allChars (p : Ascii.ascii -> bool) (s : string) : bool :=
  match s with
  | String c r => p c && allChars p r
  | EmptyString => true
  end.

Definition isHexDigit (c : Ascii.ascii) : bool :=
  let n := Z.of_nat (Ascii.nat_of_ascii c) in
  ((48 <=? n) && (n <=? 57)) || ((65 <=? n) && (n <=? 70))
  || ((97 <=? n) && (n <=? 102)).

Definition hex24 (j : Json) : bool :=
  match j with
  | JStr s => (String.length s =? 24)%nat && allChars isHexDigit s
  | _ => false
  end.

Definition hex24Cast (j : Json) : option string :=
  match j with
  | JStr s => if hex24 j then Some (toLowerCase s) else None
  | _ => None
  end.

Fixpoint digitsValue (s : string) (acc : Z) : option Z :=
  match s with
  | String c r =>
      let n := Z.of_nat (Ascii.nat_of_ascii c) in
      if (48 <=? n) && (n <=? 57) then digitsValue r (10 * acc + (n - 48))
      else None
  | EmptyString => Some acc
  end.

Definition decimalNumber (s : string) : option Z :=
  match trim s with
  | EmptyString => Some 0
  | String "-"%char (String c r) => Z.opp <$> digitsValue (String c r) 0
  | String "+"%char (String c r) => digitsValue (String c r) 0
  | t => digitsValue t 0
  end.

Definition isMetaChar (c : Ascii.ascii) : bool :=
  negb (allChars (fun m => negb (Ascii.eqb m c)) "\^$*+?()[]{}|").

Fixpoint matchHere (p s : string) : bool :=
  match p, s with
  | EmptyString, _ => true
  | String pc pr, String sc sr =>
      (if Ascii.eqb pc "."%char then negb (Ascii.eqb sc "010"%char)
       else Ascii.eqb (lowerChar pc) (lowerChar sc))
      && matchHere pr sr
  | String _ _, EmptyString => false
  end.

Fixpoint matchAnywhere (p s : string) : bool :=
  matchHere p s
  || match s with
     | String _ r => matchAnywhere p r
     | EmptyString => false
     end.

Definition dotRegexI (p : string) : option (string -> bool) :=
  if allChars (fun c => negb (isMetaChar c)) p then Some (matchAnywhere p)
  else None.

Definition sampleCastString (j : Json) : option (option string) :=
  match j with
  | JStr s => Some (Some s)
  | JNull => Some None
  | JNum n => Some (Some (pretty n))
  | JBool true => Some (Some "true")
  | JBool false => Some (Some "false")
  | JArr _ | JObj _ => None
  end.

Definition sampleCastStringArray (j : Json) : option (list string) :=
  match j with
  | JArr l => mapM (fun e => mjoin (sampleCastString e)) l
  | _ => (fun s => [s]) <$> mjoin (sampleCastString j)
  end.

#[global] Instance samplePlatform : Platform := {|
  ObjectId_isValid := hex24;
  ObjectId_hex := hex24Cast;
  StringToNumber := decimalNumber;
  Date_parse := fun _ => None;
  regexI := dotRegexI;
  castString := sampleCastString;
  castStringArray := sampleCastStringArray;
  enumAllowsNull := true;
  castString_str := fun _ => eq_refl;
  castStringArray_nil := eq_refl;
|}.

(** ** Notions the statements use *)

(** The status code of the response, when there is one. *)
Definition statusCode (o : Outcome) : option Z :=
  match o with
  | Responded r => Some (code r)
  | Unhandled _ => None
  end.





(** A field written to a path: what the path holds afterwards, given what
    it held before. *)
(** A projection of the task that only the path [key] writes. *)
Definition ownedBy {A : Type} (proj : Task.t -> A) (key : string) : Prop :=
  forall k f t, k ≠ key -> proj (setField k f t) = proj t.

Definition writeDate (f : Field) (old : option Z) : option Z :=
  match f with FDate d => d | _ => old end.

Definition writeStr (f : Field) (old : option string) : option string :=
  match f with FStr o => o | _ => old end.

Definition writeTitle (f : Field) (old : string) : string :=
  match f with FStr o => default old o | _ => old end.

Definition writeNum (f : Field) (old : Z) : Z :=
  match f with FNum n => n | _ => old end.

Definition writeTags (f : Field) (old : list string) : list string :=
  match f with FTags l => l | _ => old end.

Section Notions.
Context `{PF : Platform}.

(** The object [findByIdAndUpdate] receives, from the copied keys [u0] and
    the task [t] read before the update. *)
Definition finalUpdate (e : Env) (t : Task.t) (u0 : gmap string UVal)
  : gmap string UVal :=
  let u := coerceDueDate (coercePriority u0) in
  match u !! "status" with
  | Some nextStatus => transition e t nextStatus u
  | None => u
  end.

(** What the store requires of the optional fields of a body: each field
    the body carries has to pass the cast and the validators of its path. *)
Definition fieldsAccepted (body : Json) : Prop :=
  (forall v, prop body "notes" = Some v -> is_Some (castString v))
  ∧ (forall v, prop body "status" = Some v ->
       match castString v with
       | Some (Some s) => s ∈ statuses
       | Some None => enumAllowsNull = true
       | None => False
       end)
  ∧ (forall v, prop body "priority" = Some v ->
       match jNumber v with
       | Some n => n ∈ priorities
       | None => False
       end)
  ∧ (forall v, prop body "dueDate" = Some v -> truthy v = true ->
       is_Some (newDate v))
  ∧ (forall v, prop body "tags" = Some v -> isArray v = true ->
       is_Some (castStringArray v)).


End Notions.

(** ** Example data *)

Definition emptyStore : Store :=
  {| tasks := []; sessions := []; reachable := true; calls := [] |}.

Definition idA : string := "665f1c2e8b3a4d0012ab34c1".
Definition idB : string := "665f1c2e8b3a4d0012ab34c2".
Definition idC : string := "665f1c2e8b3a4d0012ab34c3".

(** 2024-06-15 10:00:00 UTC. *)
Definition noon : Z := 1718445600000.

(** A server on UTC. *)
Definition envUtc : Env :=
  {| now := noon; stamp := noon + 3; tz := 0; newId := idA |}.

(** A server two hours east of UTC at the same instant: local noon. *)
Definition envEast : Env :=
  {| now := noon; stamp := noon + 3; tz := 7200000; newId := idA |}.

Definition doneTask (id : string) (completed : Z) : Task.t :=
  {| Task._id := id; Task.title := "abc"; Task.notes := Some "";
     Task.status := Some "done"; Task.priority := 2; Task.dueDate := None;
     Task.tags := ["a"]; Task.completedAt := Some completed;
     Task.createdAt := completed - 1000; Task.updatedAt := completed |}.

Definition todoTask (id : string) : Task.t :=
  {| Task._id := id; Task.title := "abc"; Task.notes := Some "";
     Task.status := Some "todo"; Task.priority := 2; Task.dueDate := None;
     Task.tags := ["a"]; Task.completedAt := None;
     Task.createdAt := noon - 1000; Task.updatedAt := noon - 1000 |}.

(** Tasks completed at local noon today, yesterday and the day before. *)
Definition threeDayStore : Store :=
  {| tasks := [doneTask idA noon; doneTask idB (noon - dayMs);
               doneTask idC (noon - 2 * dayMs)];
     sessions := []; reachable := true; calls := [] |}.

(** Tasks completed yesterday and the day before, none today. *)
Definition noneTodayStore : Store :=
  {| tasks := [doneTask idB (noon - dayMs); doneTask idC (noon - 2 * dayMs)];
     sessions := []; reachable := true; calls := [] |}.

Definition oneTodoStore : Store :=
  {| tasks := [todoTask idA]; sessions := []; reachable := true; calls := [] |}.

Definition oneDoneStore : Store :=
  {| tasks := [doneTask idA (noon - 5000)]; sessions := [];
     reachable := true; calls := [] |}.

Definition downStore : Store :=
  {| tasks := [todoTask idA]; sessions := []; reachable := false; calls := [] |}.

Definition session (id : string) (started minutes : Z) : FocusSession.t :=
  {| FocusSession._id := id; FocusSession.taskId := None;
     FocusSession.startedAt := started;
     FocusSession.endedAt := started + minutes * 60000;
     FocusSession.durationMin := minutes;
     FocusSession.createdAt := started; FocusSession.updatedAt := started |}.

Definition doneBody : Json := JObj {[ "status" := JStr "done" ]}.



Definition envAt (t : Z) (id : string) : Env :=
  {| now := t; stamp := t; tz := 0; newId := id |}.

Definition minute : Z := 60000.

Definition hour : Z := 3600000.

Definition stopBody (id : string) : Json := JObj {[ "sessionId" := JStr id ]}.

(** A morning of focus, produced by the handlers themselves: a session of
    15 minutes, one of 30 minutes, and one started and not yet stopped. *)
Definition focusDay : Store :=
  let s1 := (focusStart (envAt (noon - 3 * hour) idA) (JObj ∅) emptyStore).2 in
  let s2 := (focusStop (envAt (noon - 3 * hour + 15 * minute) idA)
               (stopBody idA) s1).2 in
  let s3 := (focusStart (envAt (noon - 2 * hour) idB) (JObj ∅) s2).2 in
  let s4 := (focusStop (envAt (noon - 2 * hour + 30 * minute) idB)
               (stopBody idB) s3).2 in
  (focusStart (envAt (noon - hour) idC) (JObj ∅) s4).2.


(** A server five hours west of UTC at 2024-06-16 02:00 UTC, which is
    21:00 on the 15th there. *)
Definition envWest : Env :=
  {| now := 1718503200000; stamp := 1718503200003; tz := -18000000;
     newId := idA |}.

(** One task, completed at that very instant. *)
Definition eveningStore : Store :=
  {| tasks := [doneTask idA 1718503200000]; sessions := [];
     reachable := true; calls := [] |}.

(* ================================================================== *)
(** * Properties *)

(** ** Running the store methods *)

Arguments castPaths : simpl never.
Arguments compileWhere : simpl never.
Arguments sortTasks : simpl never.
Arguments taskById : simpl never.
Arguments sessionById : simpl never.
Arguments replaceTask : simpl never.
Arguments removeTask : simpl never.
Arguments replaceSession : simpl never.
Arguments setFields : simpl never.

Section StoreFacts.
Context `{PF : Platform}.

Lemma Task_findById_run (id : string) (st : Store) :
  Task_findById id st =
    match ObjectId_hex (JStr id) with
    | None => (Throw (CastError "_id"), logged "Task.findById" st)
    | Some oid =>
        if reachable st
        then (Ok (taskById oid (tasks st)), logged "Task.findById" st)
        else (Throw StoreUnreachable, logged "Task.findById" st)
    end.
Proof.
  unfold Task_findById, castId, mbind, Db_bind, call, roundTrip, getTasks.
  cbn. destruct (ObjectId_hex (JStr id)); cbn; [|reflexivity].
  destruct (reachable st); reflexivity.
Qed.

Lemma Task_findByIdAndUpdate_run (e : Env) (id : string)
    (u : gmap string UVal) (st : Store) :
  Task_findByIdAndUpdate e id u st =
    let st1 := logged "Task.findByIdAndUpdate" st in
    match ObjectId_hex (JStr id) with
    | None => (Throw (CastError "_id"), st1)
    | Some oid =>
        match castPaths taskSchema u with
        | Throw err => (Throw err, st1)
        | Ok fs =>
            if reachable st then
              match taskById oid (tasks st) with
              | None => (Ok None, st1)
              | Some t =>
                  let t' := touch e (setFields fs t) in
                  (Ok (Some t'), withTasks (replaceTask oid t' (tasks st)) st1)
              end
            else (Throw StoreUnreachable, st1)
        end
    end.
Proof.
  unfold Task_findByIdAndUpdate, castId, mbind, Db_bind, call, roundTrip,
    getTasks, putTasks, lift.
  cbn. destruct (ObjectId_hex (JStr id)); cbn; [|reflexivity].
  destruct (castPaths taskSchema u); cbn; [|reflexivity].
  destruct (reachable st); cbn; [|reflexivity].
  destruct (taskById s (tasks st)); reflexivity.
Qed.

Lemma Task_findByIdAndDelete_run (id : string) (st : Store) :
  Task_findByIdAndDelete id st =
    let st1 := logged "Task.findByIdAndDelete" st in
    match ObjectId_hex (JStr id) with
    | None => (Throw (CastError "_id"), st1)
    | Some oid =>
        if reachable st then
          match taskById oid (tasks st) with
          | None => (Ok None, st1)
          | Some t => (Ok (Some t), withTasks (removeTask oid (tasks st)) st1)
          end
        else (Throw StoreUnreachable, st1)
    end.
Proof.
  unfold Task_findByIdAndDelete, castId, mbind, Db_bind, call, roundTrip,
    getTasks, putTasks.
  cbn. destruct (ObjectId_hex (JStr id)); cbn; [|reflexivity].
  destruct (reachable st); cbn; [|reflexivity].
  destruct (taskById s (tasks st)); reflexivity.
Qed.

Lemma Task_create_run (e : Env) (doc : gmap string UVal) (st : Store) :
  Task_create e doc st =
    let st1 := logged "Task.create" st in
    match castPaths taskSchema doc with
    | Throw err => (Throw err, st1)
    | Ok fs =>
        if bool_decide (is_Some (doc !! "title")) then
          if reachable st then
            let t := setFields fs (blankTask e) in
            (Ok t, withTasks (tasks st ++ [t]) st1)
          else (Throw StoreUnreachable, st1)
        else (Throw (ValidatorError "title"), st1)
    end.
Proof.
  unfold Task_create, mbind, Db_bind, call, roundTrip, getTasks, putTasks,
    lift, throw.
  cbn. destruct (castPaths taskSchema doc); cbn; [|reflexivity].
  destruct (bool_decide (is_Some (doc !! "title"))); cbn; [|reflexivity].
  destruct (reachable st); reflexivity.
Qed.

Lemma Task_find_run (w : gmap string Cond) (f : string) (d : Z) (st : Store) :
  Task_find w f d st =
    let st1 := logged "Task.find" st in
    match compileWhere wherePaths w with
    | Throw err => (Throw err, st1)
    | Ok test =>
        if reachable st
        then (Ok (sortTasks f d (List.filter test (tasks st))), st1)
        else (Throw StoreUnreachable, st1)
    end.
Proof.
  unfold Task_find, mbind, Db_bind, call, roundTrip, getTasks, lift.
  cbn. destruct (compileWhere wherePaths w); cbn; [|reflexivity].
  destruct (reachable st); reflexivity.
Qed.

End StoreFacts.

(** ** The schema: what casting and writing the paths does to a task *)

Section SchemaFacts.
Context `{PF : Platform}.

Ltac by_key_cases :=
  repeat match goal with
         | |- context [String.eqb ?a ?b] => destruct (String.eqb_spec a b)
         end; subst; try congruence; try reflexivity.

Lemma title_owned : ownedBy Task.title "title".
Proof. intros k f [] Hk; destruct f; simpl; by_key_cases. Qed.

Lemma notes_owned : ownedBy Task.notes "notes".
Proof. intros k f [] Hk; destruct f; simpl; by_key_cases. Qed.

Lemma status_owned : ownedBy Task.status "status".
Proof. intros k f [] Hk; destruct f; simpl; by_key_cases. Qed.

Lemma priority_owned : ownedBy Task.priority "priority".
Proof. intros k f [] Hk; destruct f; simpl; by_key_cases. Qed.

Lemma dueDate_owned : ownedBy Task.dueDate "dueDate".
Proof. intros k f [] Hk; destruct f; simpl; by_key_cases. Qed.

Lemma tags_owned : ownedBy Task.tags "tags".
Proof. intros k f [] Hk; destruct f; simpl; by_key_cases. Qed.

Lemma completedAt_owned : ownedBy Task.completedAt "completedAt".
Proof. intros k f [] Hk; destruct f; simpl; by_key_cases. Qed.

Lemma setField_id (k : string) (f : Field) (t : Task.t) :
  Task._id (setField k f t) = Task._id t.
Proof. destruct t, f; simpl; by_key_cases. Qed.

Lemma setField_createdAt (k : string) (f : Field) (t : Task.t) :
  Task.createdAt (setField k f t) = Task.createdAt t.
Proof. destruct t, f; simpl; by_key_cases. Qed.

Lemma setFields_cons (k : string) (f : Field) (fs : list (string * Field))
    (t : Task.t) :
  setFields ((k, f) :: fs) t = setFields fs (setField k f t).
Proof. reflexivity. Qed.

Lemma setFields_id (fs : list (string * Field)) (t : Task.t) :
  Task._id (setFields fs t) = Task._id t.
Proof.
  revert t; induction fs as [|[k f] fs IH]; intros t; [reflexivity|].
  rewrite setFields_cons, IH. apply setField_id.
Qed.

Lemma setFields_createdAt (fs : list (string * Field)) (t : Task.t) :
  Task.createdAt (setFields fs t) = Task.createdAt t.
Proof.
  revert t; induction fs as [|[k f] fs IH]; intros t; [reflexivity|].
  rewrite setFields_cons, IH. apply setField_createdAt.
Qed.

Lemma castPaths_cons (k : string) (ty : PathType)
    (schema : list (string * PathType)) (u : gmap string UVal) :
  castPaths ((k, ty) :: schema) u =
    match u !! k with
    | None => castPaths schema u
    | Some v =>
        match castField k ty v with
        | Throw e => Throw e
        | Ok f =>
            match castPaths schema u with
            | Throw e => Throw e
            | Ok fs => Ok ((k, f) :: fs)
            end
        end
    end.
Proof. reflexivity. Qed.

(** A path the object does not mention, or the schema does not know, is
    left as it was. *)
Lemma castPaths_absent {A : Type} (proj : Task.t -> A) (key : string)
    (schema : list (string * PathType)) (u : gmap string UVal) :
  ownedBy proj key ->
  u !! key = None ∨ key ∉ schema.*1 ->
  forall fs t, castPaths schema u = Ok fs -> proj (setFields fs t) = proj t.
Proof.
  intros Hown.
  induction schema as [|[k ty] schema IH]; intros Hkey fs t Hc.
  - inversion Hc; reflexivity.
  - rewrite castPaths_cons in Hc.
    assert (Hrest : u !! key = None ∨ key ∉ schema.*1).
    { destruct Hkey as [?|Hn]; [by left|right].
      intros Hin; apply Hn; simpl; by right. }
    destruct (u !! k) as [v|] eqn:Hv; [|by apply IH].
    destruct (castField k ty v) as [f|]; [|discriminate].
    destruct (castPaths schema u) as [fs'|] eqn:Hc'; [|discriminate].
    inversion Hc; subst fs. rewrite setFields_cons.
    rewrite (IH Hrest fs' _ eq_refl). apply Hown.
    intros ->. destruct Hkey as [Hn|Hn]; [congruence|].
    apply Hn; simpl; by left.
Qed.

(** A path the object mentions is cast, and the cast value is written. *)
Lemma castPaths_present {A : Type} (proj : Task.t -> A) (key : string)
    (write : Field -> A -> A) (schema : list (string * PathType))
    (u : gmap string UVal) (ty : PathType) (v : UVal) :
  ownedBy proj key ->
  (forall f t, proj (setField key f t) = write f (proj t)) ->
  NoDup schema.*1 ->
  (key, ty) ∈ schema ->
  u !! key = Some v ->
  forall fs t, castPaths schema u = Ok fs ->
  exists f, castField key ty v = Ok f ∧ proj (setFields fs t) = write f (proj t).
Proof.
  intros Hown Hwrite.
  induction schema as [|[k ty'] schema IH]; intros Hnd Hin Hv fs t Hc.
  - by apply elem_of_nil in Hin.
  - rewrite castPaths_cons in Hc. simpl in Hnd. apply NoDup_cons in Hnd as [Hk Hnd].
    apply elem_of_cons in Hin as [Heq|Hin].
    + inversion Heq; subst k ty'. rewrite Hv in Hc.
      destruct (castField key ty v) as [f|]; [|discriminate].
      destruct (castPaths schema u) as [fs'|] eqn:Hc'; [|discriminate].
      inversion Hc; subst fs. exists f; split; [reflexivity|].
      rewrite setFields_cons.
      rewrite (castPaths_absent proj key schema u Hown (or_intror Hk) fs' _ Hc').
      apply Hwrite.
    + assert (k ≠ key).
      { intros ->. apply Hk. apply list_elem_of_fmap. by exists (key, ty). }
      destruct (u !! k) as [v'|] eqn:Hv'; [|by apply IH].
      destruct (castField k ty' v') as [f'|]; [|discriminate].
      destruct (castPaths schema u) as [fs'|] eqn:Hc'; [|discriminate].
      inversion Hc; subst fs.
      destruct (IH Hnd Hin Hv fs' (setField k f' t) eq_refl) as (f & Hf & Hp).
      exists f; split; [exact Hf|].
      rewrite setFields_cons, Hp. f_equal. by apply Hown.
Qed.

Lemma taskSchema_NoDup : NoDup taskSchema.*1.
Proof. apply (bool_decide_unpack _). by vm_compute. Qed.

End SchemaFacts.

(** ** The update object of [PATCH /tasks/:id] *)

Section PatchFacts.
Context `{PF : Platform}.

Lemma hasKey_false_prop (k : string) (body : Json) :
  hasKey k body = Some false -> prop body k = None.
Proof.
  destruct body; simpl; try discriminate; try done.
  intros [= Hb]. apply bool_decide_eq_false in Hb.
  by apply eq_None_not_Some.
Qed.

(** After the copy loop the object holds exactly the allow-listed keys of
    the body. *)
Lemma copyAllowed_lookup (ks : list string) (body : Json)
    (acc u : gmap string UVal) (k : string) :
  copyAllowed ks body acc = Ok u ->
  u !! k =
    if bool_decide (k ∈ ks) then
      match prop body k with
      | Some v => Some (URaw v)
      | None => acc !! k
      end
    else acc !! k.
Proof.
  revert acc; induction ks as [|k0 ks IH]; intros acc Hc; simpl in Hc.
  - inversion Hc; subst. by rewrite bool_decide_eq_false_2 by apply not_elem_of_nil.
  - assert (Hstep : forall acc',
      copyAllowed ks body acc' = Ok u ->
      (k = k0 -> match prop body k with
                 | Some v => acc' !! k = Some (URaw v)
                 | None => acc' !! k = acc !! k
                 end) ->
      (k ≠ k0 -> acc' !! k = acc !! k) ->
      u !! k = if bool_decide (k ∈ k0 :: ks) then
                 match prop body k with
                 | Some v => Some (URaw v)
                 | None => acc !! k
                 end
               else acc !! k).
    { intros acc' Hc' Heq Hne. rewrite (IH acc' Hc').
      destruct (decide (k = k0)) as [->|Hk].
      - specialize (Heq eq_refl).
        rewrite (bool_decide_eq_true_2 (k0 ∈ k0 :: ks)) by apply list_elem_of_here.
        destruct (prop body k0); case_bool_decide; congruence.
      - rewrite (Hne Hk).
        destruct (bool_decide (k ∈ ks)) eqn:Hin.
        + apply bool_decide_eq_true in Hin.
          rewrite bool_decide_eq_true_2 by (by apply list_elem_of_further).
          reflexivity.
        + apply bool_decide_eq_false in Hin.
          rewrite bool_decide_eq_false_2; [reflexivity|].
          intros [?|?]%elem_of_cons; contradiction. }
    destruct (hasKey k0 body) as [[|]|] eqn:Hk0; [| |discriminate].
    + destruct (prop body k0) as [v0|] eqn:Hp.
      * apply (Hstep _ Hc).
        -- intros ->. rewrite Hp. apply lookup_insert_eq.
        -- intros Hne. by apply lookup_insert_ne.
      * apply (Hstep _ Hc); [|done]. intros ->. by rewrite Hp.
    + apply hasKey_false_prop in Hk0.
      apply (Hstep _ Hc); [|done]. intros ->. by rewrite Hk0.
Qed.

Lemma copyAllowed_status (body : Json) (u : gmap string UVal) :
  copyAllowed allowed body ∅ = Ok u ->
  u !! "status" = URaw <$> prop body "status".
Proof.
  intros Hc. rewrite (copyAllowed_lookup _ _ _ _ "status" Hc).
  rewrite bool_decide_eq_true_2
    by (apply (bool_decide_unpack _); by vm_compute).
  rewrite lookup_empty. by destruct (prop body "status").
Qed.

Lemma copyAllowed_absent (body : Json) (u : gmap string UVal) (k : string) :
  copyAllowed allowed body ∅ = Ok u ->
  prop body k = None ∨ k ∉ allowed ->
  u !! k = None.
Proof.
  intros Hc Hk. rewrite (copyAllowed_lookup _ _ _ _ k Hc), lookup_empty.
  case_bool_decide; [|done]. destruct Hk as [->|?]; done.
Qed.


Lemma coercePriority_None (u : gmap string UVal) (k : string) :
  u !! k = None -> coercePriority u !! k = None.
Proof.
  intros Hk. unfold coercePriority.
  destruct (u !! "priority") as [[]|] eqn:Hp; try done.
  rewrite lookup_insert_ne; [done|]. intros <-; congruence.
Qed.

Lemma coercePriority_ne (u : gmap string UVal) (k : string) :
  k ≠ "priority" -> coercePriority u !! k = u !! k.
Proof.
  intros Hk. unfold coercePriority.
  destruct (u !! "priority") as [[]|]; try done. by rewrite lookup_insert_ne.
Qed.

Lemma coerceDueDate_None (u : gmap string UVal) (k : string) :
  u !! k = None -> coerceDueDate u !! k = None.
Proof.
  intros Hk. unfold coerceDueDate.
  destruct (u !! "dueDate") as [[]|] eqn:Hp; try done.
  rewrite lookup_insert_ne; [done|]. intros <-; congruence.
Qed.

Lemma coerceDueDate_ne (u : gmap string UVal) (k : string) :
  k ≠ "dueDate" -> coerceDueDate u !! k = u !! k.
Proof.
  intros Hk. unfold coerceDueDate.
  destruct (u !! "dueDate") as [[]|]; try done. by rewrite lookup_insert_ne.
Qed.

Lemma transition_ne (e : Env) (t : Task.t) (n : UVal)
    (u : gmap string UVal) (k : string) :
  k ≠ "completedAt" -> transition e t n u !! k = u !! k.
Proof.
  intros Hk. unfold transition.
  repeat case_match; try done; by rewrite lookup_insert_ne.
Qed.


Lemma finalUpdate_status (e : Env) (t : Task.t) (u0 : gmap string UVal) :
  finalUpdate e t u0 !! "status" = u0 !! "status".
Proof.
  unfold finalUpdate.
  assert (coerceDueDate (coercePriority u0) !! "status" = u0 !! "status") as Hs
    by by rewrite coerceDueDate_ne, coercePriority_ne.
  destruct (coerceDueDate (coercePriority u0) !! "status") eqn:Hu; [|congruence].
  by rewrite transition_ne, Hu.
Qed.

(** The [completedAt] key of the object: the status-transition rule. *)
Lemma finalUpdate_completedAt (e : Env) (t : Task.t) (u0 : gmap string UVal) :
  u0 !! "completedAt" = None ->
  finalUpdate e t u0 !! "completedAt" =
    match u0 !! "status" with
    | Some nextStatus =>
        if negb (statusIs t "done") && uvalIs nextStatus "done"
        then Some (UDate (Some (now e)))
        else if statusIs t "done" && negb (uvalIs nextStatus "done")
        then Some (URaw JNull)
        else None
    | None => None
    end.
Proof.
  intros H0. unfold finalUpdate.
  assert (coerceDueDate (coercePriority u0) !! "status" = u0 !! "status") as Hs
    by by rewrite coerceDueDate_ne, coercePriority_ne.
  assert (coerceDueDate (coercePriority u0) !! "completedAt" = None) as Hn
    by by apply coerceDueDate_None, coercePriority_None.
  rewrite Hs. destruct (u0 !! "status") as [n|]; [|done].
  unfold transition. repeat case_match; try done; by rewrite lookup_insert_eq.
Qed.

End PatchFacts.

(** ** Looking tasks up after a write *)

Lemma taskById_id (oid : string) (l : list Task.t) (t : Task.t) :
  taskById oid l = Some t -> Task._id t = oid.
Proof.
  unfold taskById. intros Hf. apply find_some in Hf as [_ Heq].
  by apply String.eqb_eq.
Qed.

Lemma taskById_replace (oid : string) (l : list Task.t) (t t' : Task.t) :
  taskById oid l = Some t ->
  Task._id t' = oid ->
  taskById oid (replaceTask oid t' l) = Some t'.
Proof.
  unfold taskById, replaceTask. intros Hf Hid.
  induction l as [|a l IH]; [discriminate|]. simpl in *.
  destruct (String.eqb (Task._id a) oid) eqn:Ha; simpl.
  - by rewrite Hid, String.eqb_refl.
  - rewrite Ha. by apply IH.
Qed.


Lemma touch_fields (e : Env) (t : Task.t) :
  Task._id (touch e t) = Task._id t
  ∧ Task.title (touch e t) = Task.title t
  ∧ Task.notes (touch e t) = Task.notes t
  ∧ Task.status (touch e t) = Task.status t
  ∧ Task.priority (touch e t) = Task.priority t
  ∧ Task.dueDate (touch e t) = Task.dueDate t
  ∧ Task.tags (touch e t) = Task.tags t
  ∧ Task.completedAt (touch e t) = Task.completedAt t
  ∧ Task.createdAt (touch e t) = Task.createdAt t
  ∧ Task.updatedAt (touch e t) = stamp e.
Proof. by destruct t. Qed.

(** ** [PATCH /tasks/:id]: the two ways a request ends *)

Section PatchRuns.
Context `{PF : Platform}.

Lemma finishPatch_run (e : Env) (id : string) (u : gmap string UVal)
    (st : Store) :
  finishPatch e id u st =
    let st1 := logged "Task.findByIdAndUpdate" st in
    match ObjectId_hex (JStr id) with
    | None => (Throw (CastError "_id"), st1)
    | Some oid =>
        match castPaths taskSchema u with
        | Throw err => (Throw err, st1)
        | Ok fs =>
            if reachable st then
              match taskById oid (tasks st) with
              | None =>
                  (Ok {| code := 404; payload := PError "not found" |}, st1)
              | Some t =>
                  let t' := touch e (setFields fs t) in
                  (Ok {| code := 200; payload := PTask t' |},
                   withTasks (replaceTask oid t' (tasks st)) st1)
              end
            else (Throw StoreUnreachable, st1)
        end
    end.
Proof.
  unfold finishPatch, mbind, Db_bind. rewrite Task_findByIdAndUpdate_run.
  cbn zeta. destruct (ObjectId_hex (JStr id)); [|reflexivity].
  destruct (castPaths taskSchema u); [|reflexivity].
  destruct (reachable st); [|reflexivity].
  destruct (taskById s (tasks st)); reflexivity.
Qed.

(** Either nothing is written and the answer is not 200, or the task read
    under the identifier is rewritten by the cast update and returned. *)
Lemma patchTask_cases (e : Env) (id : string) (body : Json)
    (st st' : Store) (out : Outcome) :
  patchTask e id body st = (out, st') ->
  (statusCode out ≠ Some 200
   ∧ tasks st' = tasks st ∧ sessions st' = sessions st)
  ∨ (exists oid u0 fs t,
       ObjectId_isValid (JStr id) = true
       ∧ ObjectId_hex (JStr id) = Some oid
       ∧ copyAllowed allowed body ∅ = Ok u0
       ∧ reachable st = true
       ∧ taskById oid (tasks st) = Some t
       ∧ castPaths taskSchema (finalUpdate e t u0) = Ok fs
       ∧ out = Responded {| code := 200;
                            payload := PTask (touch e (setFields fs t)) |}
       ∧ tasks st' = replaceTask oid (touch e (setFields fs t)) (tasks st)
       ∧ sessions st' = sessions st).
Proof.
  match goal with |- _ -> ?C => remember C as Concl eqn:HC end.
  assert (Hleft : forall o s, statusCode o ≠ Some 200 ->
    tasks s = tasks st -> sessions s = sessions st ->
    (o, s) = (out, st') -> Concl).
  { intros o s Hcode Ht Hs [= <- <-]. subst Concl. by left. }
  unfold patchTask, tryCatch.
  destruct (ObjectId_isValid (JStr id)) eqn:Hvalid; cbn [negb];
    [|by apply Hleft].
  unfold mbind at 1, Db_bind at 1, lift at 1.
  destruct (copyAllowed allowed body ∅) as [u0|err] eqn:Hcopy;
    [|by apply Hleft].
  assert (Hfin : forall t, finalUpdate e t u0 =
    match coerceDueDate (coercePriority u0) !! "status" with
    | Some nextStatus =>
        transition e t nextStatus (coerceDueDate (coercePriority u0))
    | None => coerceDueDate (coercePriority u0)
    end) by reflexivity.
  set (u := coerceDueDate (coercePriority u0)) in *.
  destruct (ObjectId_hex (JStr id)) as [oid|] eqn:Hoid.
  2: { destruct (u !! "status");
         [unfold mbind, Db_bind; rewrite Task_findById_run
         |rewrite finishPatch_run; cbn zeta];
         rewrite Hoid; by apply Hleft. }
  destruct (reachable st) eqn:Hreach.
  2: { destruct (u !! "status");
         [unfold mbind, Db_bind; rewrite Task_findById_run
         |rewrite finishPatch_run; cbn zeta];
         rewrite Hoid, ?Hreach; [|destruct (castPaths taskSchema u)];
         by apply Hleft. }
  destruct (taskById oid (tasks st)) as [t|] eqn:Hfound.
  2: { destruct (u !! "status");
         [unfold mbind, Db_bind; rewrite Task_findById_run
         |rewrite finishPatch_run; cbn zeta];
         rewrite Hoid, Hreach, ?Hfound; [|destruct (castPaths taskSchema u)];
         by apply Hleft. }
  specialize (Hfin t).
  assert (Hrun : forall s1,
    tasks s1 = tasks st -> sessions s1 = sessions st ->
    reachable s1 = true ->
    match finishPatch e id (finalUpdate e t u0) s1 with
    | (Ok r, st') => (Responded r, st')
    | (Throw e0, st') =>
        (Responded {| code := 400; payload := PError (message e0) |}, st')
    end = (out, st') -> Concl).
  { intros s1 Ht Hs Hr. rewrite finishPatch_run. cbn zeta.
    rewrite Hoid, Hr, Ht, Hfound.
    destruct (castPaths taskSchema (finalUpdate e t u0)) as [fs|] eqn:Hcast;
      [|by apply Hleft].
    intros [= <- <-]. subst Concl. right. exists oid, u0, fs, t.
    by repeat split. }
  destruct (u !! "status") as [nextStatus|] eqn:Hstatus.
  - unfold mbind, Db_bind. rewrite Task_findById_run, Hoid, Hreach, Hfound.
    rewrite <- Hfin. intros Heq.
    exact (Hrun (logged "Task.findById" st) eq_refl eq_refl Hreach Heq).
  - rewrite <- Hfin. intros Heq.
    exact (Hrun st eq_refl eq_refl Hreach Heq).
Qed.

End PatchRuns.

(** ** [PATCH /tasks/:id]: status transitions and the frame of an update *)

Section PatchTheorems.
Context `{PF : Platform}.

Lemma completedAt_in_schema : ("completedAt", PDate) ∈ taskSchema.
Proof. unfold taskSchema. do 6 apply list_elem_of_further. apply list_elem_of_here. Qed.

Lemma status_in_schema :
  ("status", PString false (Some ["todo"; "doing"; "done"])) ∈ taskSchema.
Proof. unfold taskSchema. do 2 apply list_elem_of_further. apply list_elem_of_here. Qed.

Lemma completedAt_write (f : Field) (t : Task.t) :
  Task.completedAt (setField "completedAt" f t)
  = writeDate f (Task.completedAt t).
Proof. by destruct t, f. Qed.

Lemma status_write (f : Field) (t : Task.t) :
  Task.status (setField "status" f t) = writeStr f (Task.status t).
Proof. by destruct t, f. Qed.

(** What the cast update does to [completedAt]. *)
Lemma cast_completedAt (u : gmap string UVal) (fs : list (string * Field))
    (t : Task.t) :
  castPaths taskSchema u = Ok fs ->
  Task.completedAt (setFields fs t) =
    match u !! "completedAt" with
    | Some (UDate (Some x)) => Some x
    | Some (URaw JNull) => None
    | _ => Task.completedAt t
    end.
Proof.
  intros Hc. destruct (u !! "completedAt") as [v|] eqn:Hv.
  - destruct (castPaths_present Task.completedAt "completedAt" writeDate
                taskSchema u PDate v completedAt_owned completedAt_write
                taskSchema_NoDup completedAt_in_schema Hv fs t Hc)
      as (f & Hf & ->).
    destruct v as [[]|?|[x|]]; simpl in Hf; by inversion Hf.
  - apply (castPaths_absent Task.completedAt "completedAt" taskSchema u
             completedAt_owned (or_introl Hv) fs t Hc).
Qed.

(** What the cast update does to [status] when the object carries a
    string. *)
Lemma cast_status_str (u : gmap string UVal) (fs : list (string * Field))
    (t : Task.t) (s : string) :
  castPaths taskSchema u = Ok fs ->
  u !! "status" = Some (URaw (JStr s)) ->
  Task.status (setFields fs t) = Some s.
Proof.
  intros Hc Hv.
  destruct (castPaths_present Task.status "status" writeStr taskSchema u _ _
              status_owned status_write taskSchema_NoDup status_in_schema
              Hv fs t Hc) as (f & Hf & ->).
  simpl in Hf. rewrite castString_str in Hf.
  case_bool_decide; by inversion Hf.
Qed.

(** C1: for an update of an existing task, a body whose status is "done"
    on a task that is not done makes the stored task done with completedAt
    set to the current time in the same write; a body whose status is not
    "done" on a done task clears completedAt; a body without status, or with
    the current status, leaves completedAt as it was; and an update that is
    not answered with 200 leaves the task as it was. *)
Theorem patch_completedAt_rule (e : Env) (id oid : string) (body : Json)
    (st st' : Store) (out : Outcome) (t : Task.t) :
  ObjectId_hex (JStr id) = Some oid ->
  taskById oid (tasks st) = Some t ->
  patchTask e id body st = (out, st') ->
  exists t',
    taskById oid (tasks st') = Some t'
    ∧ (statusCode out ≠ Some 200 -> t' = t)
    ∧ (prop body "status" = Some (JStr "done") ->
       Task.status t ≠ Some "done" ->
       statusCode out = Some 200 ->
       Task.status t' = Some "done" ∧ Task.completedAt t' = Some (now e))
    ∧ (forall v, prop body "status" = Some v ->
       v ≠ JStr "done" ->
       Task.status t = Some "done" ->
       statusCode out = Some 200 ->
       Task.completedAt t' = None
       ∧ forall s, v = JStr s -> Task.status t' = Some s)
    ∧ (prop body "status" = None
       ∨ prop body "status" = JStr <$> Task.status t ->
       Task.completedAt t' = Task.completedAt t).
Proof.
  intros Hoid Hfound Hrun.
  destruct (patchTask_cases e id body st st' out Hrun)
    as [(Hcode & Ht & _)|(oid' & u0 & fs & t0 & _ & Hoid' & Hcopy & _ & Hfound'
                          & Hcast & -> & Ht & _)].
  { exists t. rewrite Ht. repeat split; try done. }
  rewrite Hoid in Hoid'; injection Hoid' as <-.
  rewrite Hfound in Hfound'; injection Hfound' as <-.
  pose proof (touch_fields e (setFields fs t)) as (Hid & _ & _ & Hst & _ & _ & _ & Hco & _).
  exists (touch e (setFields fs t)). split.
  { rewrite Ht. apply (taskById_replace oid _ t); [done|].
    rewrite Hid, setFields_id. by apply (taskById_id oid (tasks st)). }
  assert (Hu0 : u0 !! "completedAt" = None).
  { apply (copyAllowed_absent body); [done|]. right.
    apply (bool_decide_unpack _). by vm_compute. }
  pose proof (copyAllowed_status body u0 Hcopy) as Hs0.
  pose proof (cast_completedAt _ fs t Hcast) as Hc.
  rewrite (finalUpdate_completedAt e t u0 Hu0), Hs0 in Hc.
  rewrite Hco, Hst, Hc. clear Hc Hco Hst.
  assert (Hstatus : forall s, prop body "status" = Some (JStr s) ->
            Task.status (setFields fs t) = Some s).
  { intros s Hp. apply (cast_status_str _ fs t s Hcast).
    by rewrite finalUpdate_status, Hs0, Hp. }
  split; [simpl; congruence|]. split; [|split].
  - intros Hp Hnot _. split; [by apply Hstatus|].
    rewrite Hp. simpl. unfold statusIs.
    by rewrite bool_decide_eq_false_2.
  - intros v Hp Hv Hdone _. split.
    + rewrite Hp. simpl. unfold statusIs.
      rewrite bool_decide_eq_true_2 by done. simpl.
      destruct v as [|b|n|s|l|m]; simpl; try done.
      destruct (String.eqb_spec s "done"); [congruence|done].
    + intros s ->. by apply Hstatus.
  - intros [Hp|Hp]; rewrite Hp; [done|].
    destruct (Task.status t) as [s|] eqn:Hs; [|done]. simpl.
    unfold statusIs. rewrite Hs.
    destruct (String.eqb_spec s "done") as [->|Hne].
    + by rewrite bool_decide_eq_true_2.
    + rewrite bool_decide_eq_false_2 by congruence. done.
Qed.

(** C8: a malformed identifier is answered with 400 "invalid id" by PATCH
    and by DELETE, whatever the body and the store, and the store comes
    back as it was: no call to it is made and no entity is touched. *)
Theorem invalid_id_rejected_before_store (e : Env) (id : string)
    (body : Json) (st : Store) :
  ObjectId_isValid (JStr id) = false ->
  patchTask e id body st
  = (Responded {| code := 400; payload := PError "invalid id" |}, st)
  ∧ deleteTask id st
    = (Responded {| code := 400; payload := PError "invalid id" |}, st).
Proof.
  intros Hbad. unfold patchTask, deleteTask, tryCatch.
  rewrite Hbad. split; reflexivity.
Qed.


End PatchTheorems.

(** *** The three statements on concrete requests *)

Lemma patch_completedAt_rule_witness :
  exists t',
    taskById idA (tasks (patchTask envUtc idA doneBody oneTodoStore).2) = Some t'
    ∧ Task.status t' = Some "done"
    ∧ Task.completedAt t' = Some noon.
Proof.
  destruct (patch_completedAt_rule (PF := samplePlatform) envUtc idA idA doneBody
              oneTodoStore
              (patchTask envUtc idA doneBody oneTodoStore).2
              (patchTask envUtc idA doneBody oneTodoStore).1
              (todoTask idA))
    as (t' & Hfind & _ & Hdone & _).
  - vm_compute; reflexivity.
  - vm_compute; reflexivity.
  - apply surjective_pairing.
  - exists t'. split; [exact Hfind|].
    apply Hdone; [vm_compute; reflexivity|discriminate|vm_compute; reflexivity].
Defined.

Lemma invalid_id_rejected_before_store_witness :
  patchTask envUtc "42" doneBody downStore
  = (Responded {| code := 400; payload := PError "invalid id" |}, downStore)
  ∧ deleteTask "42" downStore
    = (Responded {| code := 400; payload := PError "invalid id" |}, downStore).
Proof.
  apply (invalid_id_rejected_before_store (PF := samplePlatform)).
  vm_compute; reflexivity.
Defined.


(** ** [POST /tasks] *)

Lemma prop_orEmpty (body : Json) (k : string) :
  prop (orEmpty body) k = prop body k.
Proof.
  unfold orEmpty. destruct (truthy body) eqn:Ht; [reflexivity|].
  destruct body; simpl in *; try done.
Qed.

Ltac in_schema :=
  unfold taskSchema;
  repeat first [apply list_elem_of_here | apply list_elem_of_further].

Section CreateFacts.
Context `{PF : Platform}.

(** The casts succeed as soon as each mentioned path's cast succeeds. *)
Lemma castPaths_ok (schema : list (string * PathType)) (u : gmap string UVal) :
  (forall k ty v, (k, ty) ∈ schema -> u !! k = Some v ->
     exists f, castField k ty v = Ok f) ->
  exists fs, castPaths schema u = Ok fs.
Proof.
  induction schema as [|[k ty] schema IH]; intros Hall.
  - by exists [].
  - rewrite castPaths_cons.
    destruct IH as [fs Hfs].
    { intros k' ty' v' Hin. apply Hall. by apply list_elem_of_further. }
    rewrite Hfs. destruct (u !! k) as [v|] eqn:Hv; [|by exists fs].
    destruct (Hall k ty v (list_elem_of_here _ _) Hv) as [f ->].
    by exists ((k, f) :: fs).
Qed.

Lemma createDoc_lookup (title notes status priority dueDate tags : Json) :
  let doc := createDoc title notes status priority dueDate tags in
  doc !! "title" = Some (URaw title)
  ∧ doc !! "notes" = Some (URaw notes)
  ∧ doc !! "status" = Some (URaw status)
  ∧ doc !! "priority" = Some (UNum (jNumber priority))
  ∧ doc !! "dueDate" = Some (if truthy dueDate then UDate (newDate dueDate)
                            else URaw JNull)
  ∧ doc !! "tags" = Some (URaw (if isArray tags then tags else JArr []))
  ∧ doc !! "completedAt" = None.
Proof. cbv zeta. unfold createDoc. repeat split; by simplify_map_eq. Qed.


Lemma setField_updatedAt (k : string) (f : Field) (t : Task.t) :
  Task.updatedAt (setField k f t) = Task.updatedAt t.
Proof.
  destruct t, f; simpl;
    repeat match goal with
           | |- context [String.eqb ?a ?b] => destruct (String.eqb a b)
           end; reflexivity.
Qed.

Lemma setFields_updatedAt (fs : list (string * Field)) (t : Task.t) :
  Task.updatedAt (setFields fs t) = Task.updatedAt t.
Proof.
  revert t; induction fs as [|[k f] fs IH]; intros t; [reflexivity|].
  rewrite setFields_cons, IH. apply setField_updatedAt.
Qed.

(** The document of a body that carries a non-empty title and acceptable
    fields passes every cast. *)
Lemma createDoc_casts (body : Json) (s : string) :
  s ≠ "" ->
  fieldsAccepted body ->
  exists fs,
    castPaths taskSchema
      (createDoc (JStr s)
         (default (JStr "") (prop body "notes"))
         (default (JStr "todo") (prop body "status"))
         (default (JNum 2) (prop body "priority"))
         (default JNull (prop body "dueDate"))
         (default (JArr []) (prop body "tags"))) = Ok fs.
Proof.
  intros Hs (Hnotes & Hstatus & Hprio & Hdue & Htags).
  apply castPaths_ok. intros k ty v Hin Hv.
  match type of Hv with ?d !! _ = _ => set (doc := d) in * end.
  destruct (createDoc_lookup (JStr s)
              (default (JStr "") (prop body "notes"))
              (default (JStr "todo") (prop body "status"))
              (default (JNum 2) (prop body "priority"))
              (default JNull (prop body "dueDate"))
              (default (JArr []) (prop body "tags")))
    as (Lti & Lno & Lst & Lpr & Ldu & Lta & Lco).
  fold doc in Lti, Lno, Lst, Lpr, Ldu, Lta, Lco.
  unfold taskSchema in Hin.
  repeat (apply elem_of_cons in Hin as [Hin|Hin]);
    [..|by apply elem_of_nil in Hin]; injection Hin as -> ->.
  - rewrite Lti in Hv; injection Hv as <-. simpl. rewrite castString_str.
    destruct (String.eqb_spec s ""); [done|]. by eexists.
  - rewrite Lno in Hv; injection Hv as <-. simpl.
    destruct (prop body "notes") as [n|] eqn:Hn; simpl.
    + destruct (Hnotes n eq_refl) as [[o|] ->]; by eexists.
    + rewrite castString_str. by eexists.
  - rewrite Lst in Hv; injection Hv as <-. simpl.
    destruct (prop body "status") as [n|] eqn:Hn; simpl.
    + specialize (Hstatus n eq_refl).
      destruct (castString n) as [[o|]|]; [| |done].
      * rewrite bool_decide_eq_true_2 by done. by eexists.
      * rewrite Hstatus. by eexists.
    + rewrite castString_str. by eexists.
  - rewrite Lpr in Hv; injection Hv as <-.
    destruct (prop body "priority") as [n|] eqn:Hn; simpl.
    + specialize (Hprio n eq_refl).
      destruct (jNumber n) as [z|]; [|done].
      rewrite bool_decide_eq_true_2 by done. by eexists.
    + by eexists.
  - rewrite Ldu in Hv; injection Hv as <-.
    destruct (prop body "dueDate") as [n|] eqn:Hn; simpl.
    + destruct (truthy n) eqn:Htr; [|by eexists].
      destruct (Hdue n eq_refl Htr) as [d ->]. by eexists.
    + by eexists.
  - rewrite Lta in Hv; injection Hv as <-.
    destruct (prop body "tags") as [n|] eqn:Hn; simpl.
    + destruct (isArray n) eqn:Har.
      * destruct (Htags n eq_refl Har) as [l ->]. by eexists.
      * rewrite castStringArray_nil. by eexists.
    + rewrite castStringArray_nil. by eexists.
  - rewrite Lco in Hv; discriminate.
Qed.

End CreateFacts.

Section CreateTheorems.
Context `{PF : Platform}.

Lemma createTask_run (e : Env) (body : Json) (st : Store) :
  createTask e body st =
    match prop body "title" with
    | None =>
        (Responded {| code := 400; payload := PError "title is required" |}, st)
    | Some title =>
        if negb (truthy title) || negb (isString title) then
          (Responded {| code := 400; payload := PError "title is required" |},
           st)
        else
          let doc := createDoc title
                       (default (JStr "") (prop body "notes"))
                       (default (JStr "todo") (prop body "status"))
                       (default (JNum 2) (prop body "priority"))
                       (default JNull (prop body "dueDate"))
                       (default (JArr []) (prop body "tags")) in
          let st1 := logged "Task.create" st in
          match castPaths taskSchema doc with
          | Throw err =>
              (Responded {| code := 400; payload := PError (message err) |},
               st1)
          | Ok fs =>
              if reachable st then
                let t := setFields fs (blankTask e) in
                (Responded {| code := 201; payload := PTask t |},
                 withTasks (tasks st ++ [t]) st1)
              else
                (Responded {| code := 400;
                              payload := PError (message StoreUnreachable) |},
                 st1)
          end
    end.
Proof.
  unfold createTask, tryCatch. rewrite !prop_orEmpty.
  destruct (prop body "title") as [title|]; [|reflexivity].
  destruct (negb (truthy title) || negb (isString title)); [reflexivity|].
  unfold mbind, Db_bind. rewrite Task_create_run. cbn zeta.
  match goal with |- context [castPaths taskSchema ?d] => set (doc := d) end.
  destruct (createDoc_lookup title
              (default (JStr "") (prop body "notes"))
              (default (JStr "todo") (prop body "status"))
              (default (JNum 2) (prop body "priority"))
              (default JNull (prop body "dueDate"))
              (default (JArr []) (prop body "tags"))) as (Lti & _).
  fold doc in Lti. rewrite Lti.
  destruct (castPaths taskSchema doc); [|reflexivity].
  rewrite bool_decide_eq_true_2 by by eexists.
  destruct (reachable st); reflexivity.
Qed.

(** A body with a non-empty title and acceptable fields is stored, with the
    schema's defaults on the fields it does not carry. *)
Lemma createTask_accepted (e : Env) (body : Json) (st : Store) (s : string) :
  prop body "title" = Some (JStr s) ->
  s ≠ "" ->
  fieldsAccepted body ->
  reachable st = true ->
  exists t,
    createTask e body st
    = (Responded {| code := 201; payload := PTask t |},
       withTasks (tasks st ++ [t]) (logged "Task.create" st))
    ∧ Task._id t = newId e
    ∧ Task.title t = s
    ∧ Task.completedAt t = None
    ∧ Task.createdAt t = stamp e
    ∧ Task.updatedAt t = stamp e
    ∧ (prop body "notes" = None -> Task.notes t = Some "")
    ∧ (prop body "status" = None -> Task.status t = Some "todo")
    ∧ (forall s', prop body "status" = Some (JStr s') -> Task.status t = Some s')
    ∧ (prop body "priority" = None -> Task.priority t = 2)
    ∧ (prop body "dueDate" = None -> Task.dueDate t = None)
    ∧ (prop body "tags" = None -> Task.tags t = []).
Proof.
  intros Htitle Hs Hacc Hreach.
  destruct (createDoc_casts body s Hs Hacc) as [fs Hfs].
  rewrite createTask_run, Htitle. simpl truthy. simpl isString.
  destruct (String.eqb_spec s "") as [|_]; [done|]. cbn [negb orb]. cbn zeta.
  rewrite Hfs, Hreach.
  destruct (createDoc_lookup (JStr s)
              (default (JStr "") (prop body "notes"))
              (default (JStr "todo") (prop body "status"))
              (default (JNum 2) (prop body "priority"))
              (default JNull (prop body "dueDate"))
              (default (JArr []) (prop body "tags")))
    as (Lti & Lno & Lst & Lpr & Ldu & Lta & Lco).
  match type of Hfs with castPaths _ ?d = _ => set (doc := d) in * end.
  set (t0 := blankTask e).
  exists (setFields fs t0). split; [reflexivity|].
  rewrite setFields_id, setFields_createdAt, setFields_updatedAt.
  rewrite (cast_completedAt doc fs t0 Hfs), Lco.
  split; [reflexivity|]. split.
  { destruct (castPaths_present Task.title "title" writeTitle taskSchema doc
                (PString true None) _ title_owned
                (fun f t => ltac:(by destruct t, f)) taskSchema_NoDup
                ltac:(in_schema) Lti fs t0 Hfs) as (f & Hf & ->).
    simpl in Hf. rewrite castString_str in Hf.
    destruct (String.eqb s ""); by inversion Hf. }
  do 3 (split; [reflexivity|]).
  split; [|split; [|split; [|split; [|split]]]].
  - intros Hp. rewrite Hp in Lno.
    destruct (castPaths_present Task.notes "notes" writeStr taskSchema doc
                (PString false None) _ notes_owned
                (fun f t => ltac:(by destruct t, f)) taskSchema_NoDup
                ltac:(in_schema) Lno fs t0 Hfs) as (f & Hf & ->).
    simpl in Hf. rewrite castString_str in Hf. by inversion Hf.
  - intros Hp. rewrite Hp in Lst.
    by apply (cast_status_str doc fs t0 "todo" Hfs).
  - intros s' Hp. rewrite Hp in Lst.
    by apply (cast_status_str doc fs t0 s' Hfs).
  - intros Hp. rewrite Hp in Lpr.
    destruct (castPaths_present Task.priority "priority" writeNum taskSchema doc
                (PNumber (Some [1; 2; 3])) _ priority_owned
                (fun f t => ltac:(by destruct t, f)) taskSchema_NoDup
                ltac:(in_schema) Lpr fs t0 Hfs) as (f & Hf & ->).
    simpl in Hf. by inversion Hf.
  - intros Hp. rewrite Hp in Ldu.
    destruct (castPaths_present Task.dueDate "dueDate" writeDate taskSchema doc
                PDate _ dueDate_owned
                (fun f t => ltac:(by destruct t, f)) taskSchema_NoDup
                ltac:(in_schema) Ldu fs t0 Hfs) as (f & Hf & ->).
    simpl in Hf. by inversion Hf.
  - intros Hp. rewrite Hp in Lta.
    destruct (castPaths_present Task.tags "tags" writeTags taskSchema doc
                PStringArray _ tags_owned
                (fun f t => ltac:(by destruct t, f)) taskSchema_NoDup
                ltac:(in_schema) Lta fs t0 Hfs) as (f & Hf & ->).
    simpl in Hf. rewrite castStringArray_nil in Hf. by inversion Hf.
Qed.


(** C10: on a reachable store, creating a task from a body with a title
    and status "done" stores and returns a task that is done and whose
    completedAt is absent. *)
Theorem create_done_without_completedAt (e : Env) (st : Store) :
  reachable st = true ->
  exists t,
    createTask e (JObj {[ "title" := JStr "Ship"; "status" := JStr "done" ]}) st
    = (Responded {| code := 201; payload := PTask t |},
       withTasks (tasks st ++ [t]) (logged "Task.create" st))
    ∧ Task.status t = Some "done"
    ∧ Task.completedAt t = None.
Proof.
  intros Hreach.
  set (body := JObj {[ "title" := JStr "Ship"; "status" := JStr "done" ]}).
  assert (Hstatus : prop body "status" = Some (JStr "done")) by done.
  assert (Hnone : forall k, k ≠ "title" -> k ≠ "status" -> prop body k = None).
  { intros k H1 H2. unfold body. simpl.
    rewrite lookup_insert_ne by done. by rewrite lookup_singleton_ne. }
  destruct (createTask_accepted e body st "Ship") as (t & Hrun & Ht);
    [done|done| |done|].
  - repeat split; intros v Hv.
    + by rewrite Hnone in Hv.
    + rewrite Hstatus in Hv. injection Hv as <-. rewrite castString_str.
      apply (bool_decide_unpack _). by vm_compute.
    + by rewrite Hnone in Hv.
    + by rewrite Hnone in Hv.
    + by rewrite Hnone in Hv.
  - exists t. split; [exact Hrun|].
    destruct Ht as (_ & _ & Hco & _ & _ & _ & _ & Hst & _). split; [|done].
    by apply Hst.
Qed.

End CreateTheorems.



Lemma create_done_without_completedAt_witness :
  exists t,
    createTask envUtc
      (JObj {[ "title" := JStr "Ship"; "status" := JStr "done" ]}) emptyStore
    = (Responded {| code := 201; payload := PTask t |},
       withTasks (tasks emptyStore ++ [t]) (logged "Task.create" emptyStore))
    ∧ Task.status t = Some "done"
    ∧ Task.completedAt t = None.
Proof.
  apply (create_done_without_completedAt (PF := samplePlatform)).
  reflexivity.
Defined.

(** ** [GET /tasks] *)



Section ListFacts.
Context `{PF : Platform}.








Lemma listTasks_run (query : gmap string QVal) (st : Store) :
  listTasks query st =
    let st1 := logged "Task.find" st in
    match compileWhere wherePaths (buildWhere query) with
    | Throw err => (Unhandled err, st1)
    | Ok test =>
        if reachable st then
          (Responded
             {| code := 200;
                payload := PTasks (sortTasks (sortFieldOf (query !! "sort"))
                                     (sortDirOf (query !! "dir"))
                                     (List.filter test (tasks st))) |},
           st1)
        else (Unhandled StoreUnreachable, st1)
    end.
Proof.
  unfold listTasks, noCatch, mbind, Db_bind. rewrite Task_find_run. cbn zeta.
  destruct (compileWhere wherePaths (buildWhere query)); [|reflexivity].
  destruct (reachable st); reflexivity.
Qed.

End ListFacts.

Section ListTheorems.
Context `{PF : Platform}.




End ListTheorems.



(** ** Focus sessions and the statistics *)

Arguments Math_round_div : simpl never.
Arguments elapsedMinutes : simpl never.

Lemma sessionById_id (oid : string) (l : list FocusSession.t)
    (s : FocusSession.t) :
  sessionById oid l = Some s -> FocusSession._id s = oid.
Proof.
  unfold sessionById. intros Hf. apply find_some in Hf as [_ Heq].
  by apply String.eqb_eq.
Qed.

Lemma sessionById_replace (oid : string) (l : list FocusSession.t)
    (s s' : FocusSession.t) :
  sessionById oid l = Some s ->
  FocusSession._id s' = oid ->
  sessionById oid (replaceSession s' l) = Some s'.
Proof.
  unfold sessionById, replaceSession. intros Hf <-.
  induction l as [|a l IH]; [discriminate|]. simpl in *.
  destruct (String.eqb (FocusSession._id a) (FocusSession._id s')) eqn:Ha;
    simpl.
  - by rewrite String.eqb_refl.
  - rewrite Ha. by apply IH.
Qed.

(** The nearest integer, a tie going up. *)
Lemma Math_round_div_nearest (num den : Z) :
  0 < den ->
  2 * den * Math_round_div num den - den <= 2 * num
  ∧ 2 * num < 2 * den * Math_round_div num den + den.
Proof.
  intros Hden. unfold Math_round_div.
  pose proof (Z.div_mod (2 * num + den) (2 * den) ltac:(lia)) as Hdm.
  pose proof (Z.mod_pos_bound (2 * num + den) (2 * den) ltac:(lia)) as Hb.
  lia.
Qed.

Lemma elapsedMinutes_spec (ms : Z) :
  0 <= elapsedMinutes ms
  ∧ (-30000 <= ms ->
     60000 * elapsedMinutes ms - 30000 <= ms
     ∧ ms < 60000 * elapsedMinutes ms + 30000)
  ∧ (ms < -30000 -> elapsedMinutes ms = 0).
Proof.
  unfold elapsedMinutes.
  pose proof (Math_round_div_nearest ms 60000 ltac:(lia)) as Hn. lia.
Qed.



Section FocusFacts.
Context `{PF : Platform}.


Lemma focusStop_run (e : Env) (body : Json) (st : Store) :
  focusStop e body st =
    let refuse := (Responded {| code := 400;
                               payload := PError "sessionId required" |}, st) in
    match prop body "sessionId" with
    | None => refuse
    | Some sid =>
        if negb (truthy sid) || negb (ObjectId_isValid sid) then refuse
        else
          let st1 := logged "FocusSession.findById" st in
          match ObjectId_hex sid with
          | None =>
              (Responded {| code := 400;
                            payload := PError (message (CastError "_id")) |},
               st1)
          | Some oid =>
              if reachable st then
                match sessionById oid (sessions st) with
                | None =>
                    (Responded {| code := 404;
                                  payload := PError "session not found" |},
                     st1)
                | Some s =>
                    let s' :=
                      {| FocusSession._id := FocusSession._id s;
                         FocusSession.taskId := FocusSession.taskId s;
                         FocusSession.startedAt := FocusSession.startedAt s;
                         FocusSession.endedAt := now e;
                         FocusSession.durationMin :=
                           elapsedMinutes (now e - FocusSession.startedAt s);
                         FocusSession.createdAt := FocusSession.createdAt s;
                         FocusSession.updatedAt := stamp e |} in
                    (Responded {| code := 200; payload := PSession s' |},
                     withSessions (replaceSession s' (sessions st))
                       (logged "session.save" st1))
                end
              else
                (Responded {| code := 400;
                              payload := PError (message StoreUnreachable) |},
                 st1)
          end
    end.
Proof.
  unfold focusStop, tryCatch. rewrite prop_orEmpty. cbn zeta.
  destruct (prop body "sessionId") as [sid|]; [|reflexivity].
  destruct (negb (truthy sid) || negb (ObjectId_isValid sid)); [reflexivity|].
  unfold FocusSession_findById, FocusSession_save, castId, mbind, Db_bind,
    call, roundTrip, getSessions, putSessions, logged.
  cbn. destruct (ObjectId_hex sid); cbn; [|reflexivity].
  destruct (reachable st); cbn; [|reflexivity].
  destruct (sessionById s (sessions st)); reflexivity.
Qed.

End FocusFacts.



Section StopTheorem.
Context `{PF : Platform}.

(** C4: stopping a stored session started at T0 at time T1 answers 200,
    stores endedAt = T1 and durationMin = max(0, round((T1 - T0) / 60000)),
    where round is the nearest integer with a tie going up; durationMin is
    never negative, and it is 0 whenever T1 lies before T0. *)
Theorem stop_sets_duration (e : Env) (body sid : Json) (oid : string)
    (st : Store) (s : FocusSession.t) :
  prop body "sessionId" = Some sid ->
  truthy sid = true ->
  ObjectId_isValid sid = true ->
  ObjectId_hex sid = Some oid ->
  reachable st = true ->
  sessionById oid (sessions st) = Some s ->
  exists s' st',
    focusStop e body st
    = (Responded {| code := 200; payload := PSession s' |}, st')
    ∧ sessionById oid (sessions st') = Some s'
    ∧ tasks st' = tasks st
    ∧ FocusSession.startedAt s' = FocusSession.startedAt s
    ∧ FocusSession.endedAt s' = now e
    ∧ FocusSession.durationMin s'
      = Z.max 0 (Math_round_div (now e - FocusSession.startedAt s) 60000)
    ∧ 0 <= FocusSession.durationMin s'
    ∧ (FocusSession.startedAt s - 30000 <= now e ->
       60000 * FocusSession.durationMin s' - 30000
       <= now e - FocusSession.startedAt s
       ∧ now e - FocusSession.startedAt s
         < 60000 * FocusSession.durationMin s' + 30000)
    ∧ (now e < FocusSession.startedAt s -> FocusSession.durationMin s' = 0).
Proof.
  intros Hsid Htruthy Hvalid Hoid Hreach Hfound.
  rewrite focusStop_run, Hsid, Htruthy, Hvalid. cbn [negb orb]. cbn zeta.
  rewrite Hoid, Hreach, Hfound.
  eexists _, _. split; [reflexivity|].
  cbn [sessions tasks withSessions logged FocusSession.startedAt
       FocusSession.endedAt FocusSession.durationMin].
  pose proof (elapsedMinutes_spec (now e - FocusSession.startedAt s))
    as (Hnonneg & Hnear & Hskew).
  split.
  { apply (sessionById_replace oid _ s); [done|].
    exact (sessionById_id oid (sessions st) s Hfound). }
  repeat split; try done; lia.
Qed.

End StopTheorem.

(** A stop 44 minutes and 30 seconds after the start of the open session of
    [focusDay]: the tie rounds up to 45 minutes. *)
Lemma stop_sets_duration_witness :
  exists s' st',
    focusStop (envAt (noon - hour + 44 * minute + 30000) idC) (stopBody idC)
      focusDay
    = (Responded {| code := 200; payload := PSession s' |}, st')
    ∧ FocusSession.endedAt s' = noon - hour + 44 * minute + 30000
    ∧ FocusSession.durationMin s' = 45.
Proof.
  destruct (stop_sets_duration (PF := samplePlatform)
              (envAt (noon - hour + 44 * minute + 30000) idC) (stopBody idC)
              (JStr idC) idC focusDay
              (session idC (noon - hour) 0))
    as (s' & st' & Hrun & _ & _ & _ & Hend & Hdur & _);
    [vm_compute; reflexivity..|].
  exists s', st'. split; [exact Hrun|]. split; [exact Hend|].
  rewrite Hdur. vm_compute; reflexivity.
Defined.

(** C2 on the code: on a server two hours east of UTC, at local noon, with
    tasks completed at local noon today, yesterday and the day before, the
    streak is 2 where the claim says 3; with none completed today it is 2
    where the claim says 0.  On a server five hours west of UTC, at 21:00,
    a task completed this minute counts for todayCompleted and the streak is
    0.  The first two stores on a UTC server give 3 and 0: the scan names
    day [i] by the UTC date of local midnight, which east of UTC is the date
    of the day before, and buckets completions by their UTC date. *)
Theorem streak_mixes_day_references :
  (statsOverview envEast threeDayStore).1
  = Responded {| code := 200; payload := PStats 1 2 0 |}
  ∧ (statsOverview envEast noneTodayStore).1
    = Responded {| code := 200; payload := PStats 0 2 0 |}
  ∧ (statsOverview envWest eveningStore).1
    = Responded {| code := 200; payload := PStats 1 0 0 |}
  ∧ (statsOverview envUtc threeDayStore).1
    = Responded {| code := 200; payload := PStats 1 3 0 |}
  ∧ (statsOverview envUtc noneTodayStore).1
    = Responded {| code := 200; payload := PStats 0 0 0 |}
  ∧ isoDate (startOfNDaysAgo envEast 0) = "2024-06-14"
  ∧ isoDate (now envEast) = "2024-06-15"
  ∧ isoDate (startOfNDaysAgo envWest 0) = "2024-06-15"
  ∧ isoDate (now envWest) = "2024-06-16".
Proof. repeat split; vm_compute; reflexivity. Qed.

(** C5 on the code: [GET /tasks] has no [try] around its store call, so a
    pattern the store refuses and a store that does not answer both leave
    the handler as errors, with no response sent. *)
Theorem list_errors_escape :
  listTasks {[ "q" := QStr "(" ]} oneTodoStore
  = (Unhandled (RegexError "("), logged "Task.find" oneTodoStore)
  ∧ listTasks ∅ downStore
    = (Unhandled StoreUnreachable, logged "Task.find" downStore).
Proof. split; vm_compute; reflexivity. Qed.

(** The routes whose body is wrapped in [try] always answer. *)
Lemma tryCatch_responds (body : Db Response) (c : Z) (msg : Err -> string)
    (st : Store) :
  exists r, (tryCatch body c msg st).1 = Responded r.
Proof.
  unfold tryCatch. destruct (body st) as [[r|err] st']; by eexists.
Qed.

Lemma guarded_routes_respond `{PF : Platform} (e : Env) (id : string)
    (body : Json) (st : Store) :
  (exists r, (createTask e body st).1 = Responded r)
  ∧ (exists r, (patchTask e id body st).1 = Responded r)
  ∧ (exists r, (deleteTask id st).1 = Responded r)
  ∧ (exists r, (statsOverview e st).1 = Responded r)
  ∧ (exists r, (focusStart e body st).1 = Responded r)
  ∧ (exists r, (focusStop e body st).1 = Responded r).
Proof. repeat split; apply tryCatch_responds. Qed.

(** Whenever the store does not answer, [GET /tasks] sends nothing. *)
Lemma listTasks_unreachable `{PF : Platform} (query : gmap string QVal)
    (st : Store) :
  reachable st = false -> statusCode (listTasks query st).1 = None.
Proof.
  intros Hdown. rewrite listTasks_run. cbn zeta. rewrite Hdown.
  by destruct (compileWhere wherePaths (buildWhere query)).
Qed.
